(** * MascotaCare ERP shell: analytics, access gate and transaction commit

    A shallow embedding of the state-carrying logic of [src/App.tsx]:
    the role table and the module gate, the derived sales metrics, the
    low-stock and expiration alerts, and the transaction-commit handler.

    Conventions of the embedding.
    - A JavaScript [number] given to the program is an exact rational
      ([Q]); rounding of doubles is outside the model.  [NaN] is kept
      where the program itself can produce it, which is where it computes
      with a value read from a stock table ([number]); the [Infinity]
      that [Math.min()] returns on no arguments is [None].  Results that
      the source builds with different association of [+] are compared
      with [==] ([Qeq]).
    - A [Date] is its [getTime()] value, an integer count of milliseconds;
      the successive [new Date()] reads of one derivation or one commit
      see the same instant [now].
    - A [Record<string, ...>] is a finite map holding the own properties
      of an object literal; a read [obj[key]] that finds no own property
      goes on to [Object.prototype] ([getProperty]).
    - React state is one record; a handler is a function on that record.
      [console.log] calls are dropped. *)

From Stdlib Require Import QArith Qround Qminmax ZArith List Lia Bool.
From stdpp Require Import gmap strings list.
Import ListNotations.

Local Open Scope Q_scope.
Local Open Scope string_scope.

(** ** JavaScript primitives used by the source *)

(** [x || d] on an optional number: [undefined] and [0] are falsy. *)
Definition num_or (o : option Q) (d : Q) : Q :=
  match o with
  | Some v => if Qeq_bool v 0 then d else v
  | None => d
  end.

(** Truthiness of an optional string: [undefined] and the empty string
    are falsy. *)
Definition truthy_string (o : option string) : bool :=
  match o with
  | Some EmptyString => false
  | Some (String _ _) => true
  | None => false
  end.

(** [a === b] between a string and an optional string. *)
Definition strict_eq_opt (a : string) (o : option string) : bool :=
  match o with
  | Some b => String.eqb a b
  | None => false
  end.

(** [Array.prototype.includes] on strings. *)
Definition includes (xs : list string) (x : string) : bool :=
  existsb (String.eqb x) xs.

(** The property names of [Object.prototype], which every object literal
    inherits. *)
Definition objectPrototypeKeys : list string :=
  ["constructor"; "__defineGetter__"; "__defineSetter__"; "hasOwnProperty";
   "__lookupGetter__"; "__lookupSetter__"; "isPrototypeOf";
   "propertyIsEnumerable"; "toString"; "valueOf"; "__proto__";
   "toLocaleString"].

Definition inherited (key : string) : bool := includes objectPrototypeKeys key.

(** The result of [obj[key]] on an object literal: the own property, else
    the member of [Object.prototype] of that name (a function, or the
    prototype object itself for [__proto__]), else [undefined]. *)
Inductive property (A : Type) : Type :=
| Own (a : A)
| Inherited
| Undefined.

Arguments Own {A} a.
Arguments Inherited {A}.
Arguments Undefined {A}.

Definition getProperty {A : Type} (obj : gmap string A) (key : string)
    : property A :=
  match obj !! key with
  | Some a => Own a
  | None => if inherited key then Inherited else Undefined
  end.

(** A computed number. *)
Inductive number : Type :=
| Fin (q : Q)
| NaN.

Coercion Fin : Q >-> number.

(** An operand of the arithmetic on stock: a number, or a value that is
    not one, namely a member of [Object.prototype] or a string that [+]
    has built from one.  Such a value is truthy and converts to [NaN]. *)
Inductive operand : Type :=
| Num (n : number)
| NonNumber.

Coercion Num : number >-> operand.

Definition toNumber (v : operand) : number :=
  match v with
  | Num n => n
  | NonNumber => NaN
  end.

Definition truthy (v : operand) : bool :=
  match v with
  | Num (Fin q) => negb (Qeq_bool q 0)
  | Num NaN => false
  | NonNumber => true
  end.

(** [a || b] *)
Definition js_or (a b : operand) : operand := if truthy a then a else b.

(** [a + b] on numbers. *)
Definition add_number (a b : number) : number :=
  match a, b with
  | Fin x, Fin y => Fin (x + y)
  | _, _ => NaN
  end.

(** [a + b]: addition of two numbers, string concatenation as soon as one
    side is not a number. *)
Definition js_add (a b : operand) : operand :=
  match a, b with
  | Num x, Num y => Num (add_number x y)
  | _, _ => NonNumber
  end.

(** [a - b] and [a * b] convert both sides to numbers. *)
Definition js_sub (a b : operand) : number :=
  match toNumber a, toNumber b with
  | Fin x, Fin y => Fin (x - y)
  | _, _ => NaN
  end.

Definition js_mul (a b : operand) : number :=
  match toNumber a, toNumber b with
  | Fin x, Fin y => Fin (x * y)
  | _, _ => NaN
  end.

(** [a <= b]: false as soon as one side converts to [NaN]. *)
Definition js_le (a b : operand) : bool :=
  match toNumber a, toNumber b with
  | Fin x, Fin y => Qle_bool x y
  | _, _ => false
  end.

Definition Math_max (a b : number) : number :=
  match a, b with
  | Fin x, Fin y => Fin (Qmax x y)
  | _, _ => NaN
  end.

Definition min_number (a b : number) : number :=
  match a, b with
  | Fin x, Fin y => Fin (Qmin x y)
  | _, _ => NaN
  end.

(** What a computation yields: a value, or a thrown [TypeError]. *)
Inductive outcome (A : Type) : Type :=
| Returned (a : A)
| TypeError.

Arguments Returned {A} a.
Arguments TypeError {A}.

Definition bind {A B : Type} (o : outcome A) (k : A -> outcome B) : outcome B :=
  match o with
  | Returned a => k a
  | TypeError => TypeError
  end.

Definition Math_floor (x : Q) : Z := Qfloor x.

Definition Math_ceil (x : Q) : Z := Qceiling x.

(** [Math.min(...xs)]; [None] stands for [Infinity]. *)
Definition Math_min_with {A : Type} (m : A -> A -> A) (xs : list A) : option A :=
  match xs with
  | [] => None
  | x :: rest => Some (fold_left m rest x)
  end.

Definition Math_min (xs : list operand) : option number :=
  Math_min_with min_number (List.map toNumber xs).

Definition Math_min_int : list Z -> option Z := Math_min_with Z.min.

Definition Q_of_nat (n : nat) : Q := inject_Z (Z.of_nat n).

(** ** Data model *)

Inductive UserRole : Type :=
| OwnerAdmin
| SalesRepresentative
| AccountantBookkeeper
| ViewerOnly.

Definition roleName (r : UserRole) : string :=
  match r with
  | OwnerAdmin => "Owner/Admin"
  | SalesRepresentative => "Sales Representative"
  | AccountantBookkeeper => "Accountant/Bookkeeper"
  | ViewerOnly => "Viewer Only"
  end.

Module CartItem.
Record t : Type := mk {
  id : string;
  name : string;
  price : Q;
  quantity : Q;
  weight : Q;
  category : string;
  totalWeight : Q
}.
End CartItem.

Module Transaction.
Record t : Type := mk {
  id : string;
  branch : string;
  customer : string;
  customerId : option string;
  items : list CartItem.t;
  subtotal : Q;
  discount : Q;
  total : Q;
  timestamp : Z;
  cashier : string;
  paymentMethod : string;
  notes : option string
}.
End Transaction.

(** The descriptive product fields (supplier, composition, dosage, ...)
    take no part in any computation and are carried along unchanged by
    the object spread; they are left out. *)
Module InventoryItem.
Record t : Type := mk {
  id : string;
  name : string;
  category : string;
  price : Q;
  costPrice : Q;
  weight : Q;
  stock : gmap string number;
  stockWeight : gmap string number;
  lowStockThreshold : Q;
  expirationDates : option (gmap string (list Z));
  createdAt : Z;
  updatedAt : Z
}.
End InventoryItem.

(** Profile fields of a customer that the commit handler only copies are
    left out as well. *)
Module Customer.
Record t : Type := mk {
  id : string;
  name : string;
  lastContact : string;
  totalOrders : Q;
  totalSpent : Q;
  loyaltyPoints : Q;
  lastPurchase : string
}.
End Customer.

(** ** Role-based access control *)

Definition isAdmin (role : UserRole) : bool :=
  match role with OwnerAdmin => true | _ => false end.

Definition isWorker (role : UserRole) : bool :=
  match role with SalesRepresentative => true | _ => false end.

Definition canEditInventory (role : UserRole) : bool := isAdmin role.

Definition canEditPrices (role : UserRole) : bool := isAdmin role.

Definition canViewFinancials (role : UserRole) : bool :=
  isAdmin role || match role with AccountantBookkeeper => true | _ => false end.

Definition userRoles (role : UserRole) : list string :=
  match role with
  | OwnerAdmin =>
      ["dashboard"; "pos"; "reports"; "crm"; "sales"; "inventory"; "finance"; "settings"]
  | SalesRepresentative => ["dashboard"; "pos"; "inventory"; "crm"]
  | AccountantBookkeeper => ["dashboard"; "reports"; "finance"]
  | ViewerOnly => ["dashboard"; "reports"]
  end.

(** [userRoles[role] || []]: the table is total on the enumeration, and an
    array is always truthy. *)
Definition allowedModules (role : UserRole) : list string := userRoles role.

(** ** Application state *)

Module App.
Record state : Type := mk {
  currentRole : UserRole;
  activeModule : string;
  isMobileMenuOpen : bool;
  inventory : list InventoryItem.t;
  allTransactions : list Transaction.t;
  customers : list Customer.t
}.
End App.

(** ** Analytics *)

Module Metrics.
Record t : Type := mk {
  totalRevenue : Q;
  totalOrders : nat;
  averageOrder : Q;
  grossProfit : Q;
  inventoryValue : number;
  totalInventoryWeight : number;
  totalCOGS : Q
}.
End Metrics.

(** [item.stock[branch] || 0] *)
Definition stockAt (item : InventoryItem.t) (branch : string) : operand :=
  match getProperty (InventoryItem.stock item) branch with
  | Own n => js_or (Num n) (Num (Fin 0))
  | Inherited => js_or NonNumber (Num (Fin 0))
  | Undefined => Num (Fin 0)
  end.

Definition salesMetrics (allTransactions : list Transaction.t)
    (inventory : list InventoryItem.t) (branchNames : list string)
    (admin : bool) : Metrics.t :=
  let totalRevenue :=
    fold_left (fun sum t => sum + Transaction.total t) allTransactions 0 in
  let totalOrders := length allTransactions in
  let averageOrder :=
    if (0 <? totalOrders)%nat then totalRevenue / Q_of_nat totalOrders else 0 in
  let totalCOGS :=
    if admin then
      fold_left (fun sum t =>
        sum + fold_left (fun itemSum item =>
          let inventoryItem :=
            find (fun inv => String.eqb (InventoryItem.id inv) (CartItem.id item))
                 inventory in
          let costPrice :=
            num_or (option_map InventoryItem.costPrice inventoryItem) 0 in
          itemSum + costPrice * CartItem.quantity item)
          (Transaction.items t) 0)
        allTransactions 0
    else 0 in
  let grossProfit := if admin then totalRevenue - totalCOGS else 0 in
  let inventoryValue :=
    if admin then
      fold_left (fun sum item =>
        let totalStock :=
          fold_left (fun branchSum branch => js_add branchSum (stockAt item branch))
                    branchNames (Num (Fin 0)) in
        add_number sum (js_mul totalStock (Fin (InventoryItem.costPrice item))))
        inventory (Fin 0)
    else Fin 0 in
  let totalInventoryWeight :=
    fold_left (fun sum item =>
      let totalStock :=
        fold_left (fun branchSum branch => js_add branchSum (stockAt item branch))
                  branchNames (Num (Fin 0)) in
      add_number sum (js_mul totalStock (Fin (InventoryItem.weight item))))
      inventory (Fin 0) in
  Metrics.mk totalRevenue totalOrders averageOrder grossProfit inventoryValue
             totalInventoryWeight totalCOGS.

(** ** Alerts *)

Module StockAlert.
Record t : Type := mk {
  id : string;
  name : string;
  branches : list string;
  lowestStock : option number;
  type : string
}.
End StockAlert.

Module ExpirationAlert.
Record t : Type := mk {
  id : string;
  name : string;
  branch : string;
  daysLeft : option Z;
  type : string
}.
End ExpirationAlert.

(** The [stockAlerts] of the alert derivation. *)
Definition lowStockAlerts (inventory : list InventoryItem.t)
    (branchNames : list string) : list StockAlert.t :=
  List.map (fun item =>
      StockAlert.mk
        (InventoryItem.id item)
        (InventoryItem.name item)
        (List.filter (fun branch =>
           js_le (stockAt item branch)
                 (Num (Fin (InventoryItem.lowStockThreshold item))))
           branchNames)
        (Math_min (List.map (fun branch => stockAt item branch) branchNames))
        "stock")
    (List.filter (fun item =>
       existsb (fun branch =>
         js_le (stockAt item branch)
               (Num (Fin (InventoryItem.lowStockThreshold item))))
         branchNames)
       inventory).

(** [1000 * 60 * 60 * 24] *)
Definition msPerDay : Q := inject_Z (1000 * 60 * 60 * 24).

(** [Math.ceil((date.getTime() - new Date().getTime()) / msPerDay)] *)
Definition daysUntilExpiration (now date : Z) : Z :=
  Math_ceil ((inject_Z date - inject_Z now) / msPerDay).

(** The body of [branchNames.forEach] inside the [reduce]: it pushes at
    most one alert for the pair onto the accumulated array.  When the read
    [item.expirationDates[branch]] lands on a member of [Object.prototype]
    the value is truthy and has no [filter] method, and the call throws. *)
Definition pushExpirationAlert (now : Z) (item : InventoryItem.t)
    (alerts : list ExpirationAlert.t) (branch : string)
    : outcome (list ExpirationAlert.t) :=
  match InventoryItem.expirationDates item with
  | None => Returned alerts
  | Some byBranch =>
      match getProperty byBranch branch with
      | Undefined => Returned alerts
      | Inherited => TypeError
      | Own dates =>
          let expiringItems :=
            List.filter (fun date =>
              let d := daysUntilExpiration now date in
              (d <=? 20)%Z && (0 <? d)%Z) dates in
          if (0 <? length expiringItems)%nat then
            Returned
              (alerts ++
                 [ExpirationAlert.mk
                    (InventoryItem.id item ++ "-" ++ branch)
                    (InventoryItem.name item)
                    branch
                    (Math_min_int
                       (List.map (daysUntilExpiration now) expiringItems))
                    "expiration"])%list
          else Returned alerts
      end
  end.

(** The [expAlerts] of the alert derivation; a throw inside a callback
    leaves the [forEach] and the [reduce]. *)
Definition expirationAlerts (now : Z) (inventory : list InventoryItem.t)
    (branchNames : list string) : outcome (list ExpirationAlert.t) :=
  fold_left (fun acc item =>
      bind acc (fun alerts =>
        fold_left (fun acc' branch =>
            bind acc' (fun alerts' => pushExpirationAlert now item alerts' branch))
          branchNames (Returned alerts)))
    inventory (Returned []).

(** The whole alert derivation, one [useMemo]: both lists, or the throw. *)
Definition alertsMemo (now : Z) (inventory : list InventoryItem.t)
    (branchNames : list string)
    : outcome (list StockAlert.t * list ExpirationAlert.t) :=
  let stockAlerts := lowStockAlerts inventory branchNames in
  bind (expirationAlerts now inventory branchNames)
       (fun expAlerts => Returned (stockAlerts, expAlerts)).

(** ** Event handlers *)

(** The denial text of [handleModuleChange]. *)
Definition denialMessage (role : UserRole) : string :=
  "Acceso denegado. Su rol (" ++ roleName role
    ++ ") no tiene permisos para acceder a este módulo.".

(** The handler returns the next state and the text passed to [alert],
    if any. *)
Definition handleModuleChange (moduleId : string) (st : App.state)
    : App.state * option string :=
  if includes (allowedModules (App.currentRole st)) moduleId then
    (App.mk (App.currentRole st) moduleId false (App.inventory st)
            (App.allTransactions st) (App.customers st),
     None)
  else (st, Some (denialMessage (App.currentRole st))).

Section Commit.

(** [new Date()] read during the commit, and its rendering by
    [toLocaleDateString('es-NI')]. *)
Variable now : Z.
Variable toLocaleDateString : Z -> string.

(** The callback of [prevInventory.map]. *)
Definition deductStock (transaction : Transaction.t) (item : InventoryItem.t)
    : InventoryItem.t :=
  match find (fun cartItem =>
                String.eqb (CartItem.id cartItem) (InventoryItem.id item))
             (Transaction.items transaction) with
  | Some soldItem =>
      let currentStock := stockAt item (Transaction.branch transaction) in
      let newStock :=
        Math_max (Fin 0)
          (js_sub currentStock (Num (Fin (CartItem.quantity soldItem)))) in
      let newStockWeight :=
        js_mul (Num newStock) (Num (Fin (InventoryItem.weight item))) in
      InventoryItem.mk
        (InventoryItem.id item)
        (InventoryItem.name item)
        (InventoryItem.category item)
        (InventoryItem.price item)
        (InventoryItem.costPrice item)
        (InventoryItem.weight item)
        (<[Transaction.branch transaction := newStock]>
           (InventoryItem.stock item))
        (<[Transaction.branch transaction := newStockWeight]>
           (InventoryItem.stockWeight item))
        (InventoryItem.lowStockThreshold item)
        (InventoryItem.expirationDates item)
        (InventoryItem.createdAt item)
        now
  | None => item
  end.

(** The callback of [prevCustomers.map]. *)
Definition recordPurchase (transaction : Transaction.t) (customer : Customer.t)
    : Customer.t :=
  if strict_eq_opt (Customer.id customer) (Transaction.customerId transaction)
  then
    Customer.mk
      (Customer.id customer)
      (Customer.name customer)
      (toLocaleDateString now)
      (Customer.totalOrders customer + 1)
      (Customer.totalSpent customer + Transaction.total transaction)
      (Customer.loyaltyPoints customer
         + inject_Z (Math_floor (Transaction.total transaction / 100)))
      (toLocaleDateString now)
  else customer.

Definition handleNewTransaction (transaction : Transaction.t) (st : App.state)
    : App.state :=
  App.mk
    (App.currentRole st)
    (App.activeModule st)
    (App.isMobileMenuOpen st)
    (List.map (deductStock transaction) (App.inventory st))
    (transaction :: App.allTransactions st)
    (if truthy_string (Transaction.customerId transaction)
     then List.map (recordPurchase transaction) (App.customers st)
     else App.customers st).

End Commit.

(** * Specification-side notions and sample data

    The sums, predicates and readings that the statements below compare
    the source with, and a few concrete records for the worked cases. *)

(** The mathematical sum that the specification writes as a capital sigma. *)
Definition Qsum (xs : list Q) : Q := fold_right Qplus 0 xs.

(** The on-hand quantity of the claims: the own entry of the stock
    table, a missing entry (and a [NaN] one, which is falsy) counting 0. *)
Definition onHand (item : InventoryItem.t) (branch : string) : Q :=
  match InventoryItem.stock item !! branch with
  | Some (Fin q) => q
  | _ => 0
  end.

(** No listed branch bears the name of a member of [Object.prototype]. *)
Definition plainNames (branchNames : list string) : Prop :=
  forall branch, In branch branchNames -> inherited branch = false.

Definition sampleItem (id : string) (units threshold : Q) : InventoryItem.t :=
  InventoryItem.mk id "Concentrado" "feed" 12 7 2
    {["Main" := Fin units]} {["Main" := Fin (units * 2)]} threshold None 0 0.

Definition sampleLine (id : string) (quantity : Q) : CartItem.t :=
  CartItem.mk id "Concentrado" 12 quantity 2 "feed" (quantity * 2).

Definition sampleSale (customerId : option string) (lines : list CartItem.t)
    (total : Q) : Transaction.t :=
  Transaction.mk "T-1" "Main" "Cliente" customerId lines total 0 total 0
    "Sarah" "cash" None.

Definition sampleCustomer (id : string) : Customer.t :=
  Customer.mk id "Cliente" "1/1/2024" 3 500 5 "1/1/2024".

(** Cost of one line item as the specification words it: the cost price of
    the matched inventory record times the quantity sold, 0 when no record
    matches. *)
Definition lineCost_spec (inventory : list InventoryItem.t) (line : CartItem.t) : Q :=
  match find (fun inv => String.eqb (InventoryItem.id inv) (CartItem.id line))
             inventory with
  | Some inv => InventoryItem.costPrice inv * CartItem.quantity line
  | None => 0
  end.

Definition totalCOGS_spec (T : list Transaction.t)
    (inventory : list InventoryItem.t) : Q :=
  Qsum (List.map (fun t =>
          Qsum (List.map (lineCost_spec inventory) (Transaction.items t))) T).

(** Units on hand across the named branches, a missing entry counting 0. *)
Definition unitsOnHand (item : InventoryItem.t) (branchNames : list string) : Q :=
  Qsum (List.map (onHand item) branchNames).

Definition inventoryValue_spec (inventory : list InventoryItem.t)
    (branchNames : list string) : Q :=
  Qsum (List.map (fun item =>
          unitsOnHand item branchNames * InventoryItem.costPrice item) inventory).

Definition totalInventoryWeight_spec (inventory : list InventoryItem.t)
    (branchNames : list string) : Q :=
  Qsum (List.map (fun item =>
          unitsOnHand item branchNames * InventoryItem.weight item) inventory).

Definition sampleState (role : UserRole) : App.state :=
  App.mk role "dashboard" true
    [sampleItem "feed-1" 10 5] [] [sampleCustomer "c-1"].

(** A branch is at or below the item's threshold. *)
Definition lowAt (item : InventoryItem.t) (branch : string) : Prop :=
  onHand item branch <= InventoryItem.lowStockThreshold item.

(** The batch lies in the fixed alert window. *)
Definition inWindow (now date : Z) : Prop :=
  (0 < daysUntilExpiration now date <= 20)%Z.

(** The expiration dates recorded for an item at a branch, none when the
    item has no table or the table has no entry for the branch. *)
Definition batchesAt (item : InventoryItem.t) (branch : string) : list Z :=
  match InventoryItem.expirationDates item with
  | Some byBranch =>
      match byBranch !! branch with
      | Some dates => dates
      | None => []
      end
  | None => []
  end.

Definition sampleBatches (dates : list Z) : InventoryItem.t :=
  InventoryItem.mk "med-1" "Vitaminas" "medicine" 30 20 1
    {["Main" := Fin 4]} {["Main" := Fin 4]} 1 (Some {["Main" := dates]}) 0 0.

(** The alerts that one item and branch add to an empty list. *)
Definition alertsOfPair (now : Z) (item : InventoryItem.t) (branch : string)
    : list ExpirationAlert.t :=
  match pushExpirationAlert now item [] branch with
  | Returned alerts => alerts
  | TypeError => []
  end.

(** The claim's reading of the alert condition: the least days-left over
    all batches of the pair lies in the window. *)
Definition nearestInWindow_spec (now : Z) (item : InventoryItem.t)
    (branch : string) : Prop :=
  exists m,
    Math_min_int (List.map (daysUntilExpiration now) (batchesAt item branch))
      = Some m
    /\ (0 < m <= 20)%Z.

(** The first line item of the transaction that carries the item's id, as
    [transaction.items.find] returns it. *)
Definition soldLine (transaction : Transaction.t) (item : InventoryItem.t)
    : option CartItem.t :=
  find (fun cartItem => String.eqb (CartItem.id cartItem) (InventoryItem.id item))
       (Transaction.items transaction).

(** The same transaction with another list of line items. *)
Definition withItems (t : Transaction.t) (lines : list CartItem.t)
    : Transaction.t :=
  Transaction.mk (Transaction.id t) (Transaction.branch t)
    (Transaction.customer t) (Transaction.customerId t) lines
    (Transaction.subtotal t) (Transaction.discount t) (Transaction.total t)
    (Transaction.timestamp t) (Transaction.cashier t)
    (Transaction.paymentMethod t) (Transaction.notes t).

(** * Further parts of the shell

    The remaining state-carrying code of [src/App.tsx]: the branch list,
    the per-branch rollup, the role switch, the menus, the dispatcher and
    the dashboard shortcuts.  The icons of the menu entries and the props
    handed to the mounted modules are presentation and are left out; a
    mounted module is identified by the name of its component. *)

Module Branch.
Record t : Type := mk {
  id : string;
  name : string;
  address : string;
  phone : option string;
  manager : option string;
  active : bool;
  createdAt : Z
}.
End Branch.

Definition activeBranches (branches : list Branch.t) : list Branch.t :=
  List.filter Branch.active branches.

Definition branchNames (branches : list Branch.t) : list string :=
  List.map Branch.name (activeBranches branches).

(** [handleBranchUpdate]: the next branch list and the next current
    branch. *)
Definition handleBranchUpdate (currentBranch : string)
    (updatedBranches : list Branch.t) : list Branch.t * string :=
  let currentBranchExists :=
    find (fun b => String.eqb (Branch.name b) currentBranch && Branch.active b)
         updatedBranches in
  match currentBranchExists with
  | Some _ => (updatedBranches, currentBranch)
  | None =>
      match find Branch.active updatedBranches with
      | Some firstActiveBranch => (updatedBranches, Branch.name firstActiveBranch)
      | None => (updatedBranches, currentBranch)
      end
  end.

Module BranchStats.
Record t : Type := mk {
  totalRevenue : Q;
  totalOrders : nat;
  todayRevenue : Q;
  todayOrders : nat;
  averageOrder : Q;
  inventoryWeight : number
}.
End BranchStats.

(** [branchAnalytics]; [today] is the instant that
    [today.setHours(0, 0, 0, 0)] leaves, midnight of the current day. *)
Definition branchAnalytics (today : Z) (allTransactions : list Transaction.t)
    (branchNames : list string) (inventory : list InventoryItem.t)
    : gmap string BranchStats.t :=
  fold_left (fun branchData branch =>
      let branchTransactions :=
        List.filter (fun t => String.eqb (Transaction.branch t) branch)
                    allTransactions in
      let branchRevenue :=
        fold_left (fun sum t => sum + Transaction.total t) branchTransactions 0 in
      let branchOrders := length branchTransactions in
      let todayTransactions :=
        List.filter (fun t => (today <=? Transaction.timestamp t)%Z)
                    branchTransactions in
      let todayRevenue :=
        fold_left (fun sum t => sum + Transaction.total t) todayTransactions 0 in
      let branchInventoryWeight :=
        fold_left (fun sum item =>
            add_number sum
              (js_mul (stockAt item branch) (Num (Fin (InventoryItem.weight item)))))
          inventory (Fin 0) in
      <[branch :=
          BranchStats.mk branchRevenue branchOrders todayRevenue
            (length todayTransactions)
            (if (0 <? branchOrders)%nat
             then branchRevenue / Q_of_nat branchOrders else 0)
            branchInventoryWeight]> branchData)
    branchNames ∅.

(** [(branchAnalytics[name] || {}).field || 0], the dashboard's read of a
    numeric field of a branch. *)
Definition branchField (branchData : gmap string BranchStats.t)
    (field : BranchStats.t -> Q) (name : string) : Q :=
  num_or (option_map field (branchData !! name)) 0.

(** [(branchAnalytics[name] || {}).inventoryWeight || 0], the same read of
    the weight, where a [NaN] weight is falsy and shows as 0. *)
Definition branchWeight (branchData : gmap string BranchStats.t)
    (name : string) : Q :=
  match option_map BranchStats.inventoryWeight (branchData !! name) with
  | Some (Fin q) => if Qeq_bool q 0 then 0 else q
  | _ => 0
  end.

(** [lowStockAlerts.filter(alert => alert.branches.includes(name)).length],
    the badge of a branch card. *)
Definition branchAlertCount (alerts : list StockAlert.t) (name : string) : nat :=
  length (List.filter (fun alert => includes (StockAlert.branches alert) name)
                      alerts).

(** [lowStockAlerts.length + expirationAlerts.length], over the two lists
    of the alert derivation. *)
Definition totalAlerts (now : Z) (inventory : list InventoryItem.t)
    (branchNames : list string) : outcome nat :=
  bind (alertsMemo now inventory branchNames)
       (fun alerts => Returned (length (fst alerts) + length (snd alerts))%nat).

Module CurrentUser.
Record t : Type := mk {
  name : string;
  email : string;
  role : UserRole;
  avatar : string
}.
End CurrentUser.

(** The user that [switchRole] installs, by the role held before. *)
Definition switchedUser (role : UserRole) : CurrentUser.t :=
  match role with
  | OwnerAdmin =>
      CurrentUser.mk "Miguel Torres" "miguel@mascotacare.com.ni"
        SalesRepresentative
        "https://images.unsplash.com/photo-1472099645785-5658abf4ff4e?w=150&h=150&fit=crop&crop=face"
  | _ =>
      CurrentUser.mk "Sarah González" "sarah@mascotacare.com.ni"
        OwnerAdmin
        "https://images.unsplash.com/photo-1494790108755-2616b612b96c?w=150&h=150&fit=crop&crop=face"
  end.

Definition switchRole (st : App.state) : App.state :=
  App.mk (CurrentUser.role (switchedUser (App.currentRole st))) "dashboard"
    (App.isMobileMenuOpen st) (App.inventory st) (App.allTransactions st)
    (App.customers st).

(** The state setter behind every direct [setActiveModule(id)] call. *)
Definition setActiveModule (moduleId : string) (st : App.state) : App.state :=
  App.mk (App.currentRole st) moduleId (App.isMobileMenuOpen st)
    (App.inventory st) (App.allTransactions st) (App.customers st).

Module MenuItem.
Record t : Type := mk {
  id : string;
  label : string
}.
End MenuItem.

Definition adminMenuItems : list MenuItem.t :=
  [MenuItem.mk "dashboard" "Dashboard";
   MenuItem.mk "pos" "Punto de Venta";
   MenuItem.mk "inventory" "Inventario";
   MenuItem.mk "crm" "Clientes";
   MenuItem.mk "sales" "Ventas";
   MenuItem.mk "reports" "Reportes";
   MenuItem.mk "finance" "Finanzas";
   MenuItem.mk "settings" "Configuración"].

Definition workerMenuItems : list MenuItem.t :=
  [MenuItem.mk "dashboard" "Dashboard";
   MenuItem.mk "pos" "Punto de Venta";
   MenuItem.mk "inventory" "Consulta Stock";
   MenuItem.mk "crm" "Clientes"].

Definition menuItems (role : UserRole) : list MenuItem.t :=
  if isWorker role then workerMenuItems else adminMenuItems.

(** The entries for which the sidebar and the mobile menu render a button:
    [if (!isAllowed) return null]. *)
Definition renderedMenu (role : UserRole) : list MenuItem.t :=
  List.filter (fun item => includes (allowedModules role) (MenuItem.id item))
              (menuItems role).

(** A click on the sidebar button of an entry: [setActiveModule(item.id)]. *)
Definition sidebarClick (item : MenuItem.t) (st : App.state) : App.state :=
  setActiveModule (MenuItem.id item) st.

(** A click on the mobile-menu button of an entry:
    [handleModuleChange(item.id)]. *)
Definition mobileMenuClick (item : MenuItem.t) (st : App.state)
    : App.state * option string :=
  handleModuleChange (MenuItem.id item) st.

(** What [renderContent] mounts. *)
Inductive View : Type :=
| EmptyStateDashboard
| PopulatedDashboard
| POSModule
| ReportsModule
| InventoryModule
| CRMModule
| SalesModule
| FinanceAccessDenied
| FinanceModule
| SettingsModule.

Definition renderDashboard (st : App.state) : View :=
  if ((length (App.allTransactions st) =? 0)%nat
      && (length (App.inventory st) =? 0)%nat
      && (length (App.customers st) =? 0)%nat)%bool
  then EmptyStateDashboard
  else PopulatedDashboard.

(** The [switch] of [renderContent]; the [catch] panel for a module that
    throws while rendering is outside the model. *)
Definition renderContent (st : App.state) : View :=
  let activeModule := App.activeModule st in
  if String.eqb activeModule "dashboard" then renderDashboard st
  else if String.eqb activeModule "pos" then POSModule
  else if String.eqb activeModule "reports" then ReportsModule
  else if String.eqb activeModule "inventory" then InventoryModule
  else if String.eqb activeModule "crm" then CRMModule
  else if String.eqb activeModule "sales" then SalesModule
  else if String.eqb activeModule "finance" then
    if negb (canViewFinancials (App.currentRole st)) then FinanceAccessDenied
    else FinanceModule
  else if String.eqb activeModule "settings" then SettingsModule
  else renderDashboard st.

(** The module ids behind the shortcut buttons and cards of a dashboard,
    each wired to a direct [setActiveModule]. *)
Definition dashboardShortcuts (view : View) : list string :=
  match view with
  | EmptyStateDashboard => ["inventory"; "crm"; "pos"; "settings"]
  | PopulatedDashboard => ["finance"; "sales"; "inventory"; "crm"]
  | _ => []
  end.

(** The heading above the mounted module. *)
Definition pageTitle (st : App.state) : string :=
  let activeModule := App.activeModule st in
  let role := App.currentRole st in
  if String.eqb activeModule "pos" then "Sistema Punto de Venta"
  else if String.eqb activeModule "sales" then "Análisis de Ventas"
  else if String.eqb activeModule "inventory" && isWorker role
       then "Consulta de Stock"
  else if String.eqb activeModule "inventory" && isAdmin role
       then "Gestión de Inventario"
  else if String.eqb activeModule "reports" then "Reportes y Exportes"
  else if String.eqb activeModule "finance" then "Análisis Financiero"
  else if String.eqb activeModule "settings" then "Configuración"
  else if String.eqb activeModule "crm" then "Gestión de Clientes"
  else "Dashboard Principal".

(** The state the shell starts in. *)
Definition initialState : App.state :=
  App.mk OwnerAdmin "dashboard" false [] [] [].

(** ** Notions used by the further properties *)

(** The active module is one the current role may open. *)
Definition moduleAllowed (st : App.state) : Prop :=
  In (App.activeModule st) (allowedModules (App.currentRole st)).

(** The stock weight recorded at every branch is the stock there times the
    unit weight, and the two tables have the same branches. *)
Definition weightConsistent (item : InventoryItem.t) : Prop :=
  forall branch,
    match InventoryItem.stock item !! branch,
          InventoryItem.stockWeight item !! branch with
    | Some (Fin units), Some (Fin pounds) =>
        pounds == units * InventoryItem.weight item
    | None, None => True
    | _, _ => False
    end.

Definition sampleBranch (name : string) (active : bool) : Branch.t :=
  Branch.mk name name "Managua" None None active 0.

(** * Properties *)

(** ** Sums of rationals *)

Lemma fold_left_Qplus_acc {A : Type} (f : A -> Q) (xs : list A) (a : Q) :
  fold_left (fun acc x => acc + f x) xs a == a + Qsum (List.map f xs).
Proof.
  revert a. induction xs as [|x xs IH]; intros a; simpl.
  - ring.
  - rewrite IH. ring.
Qed.

Lemma fold_left_Qplus {A : Type} (f : A -> Q) (xs : list A) :
  fold_left (fun acc x => acc + f x) xs 0 == Qsum (List.map f xs).
Proof. rewrite fold_left_Qplus_acc. ring. Qed.

Lemma Qsum_map_ext {A : Type} (f g : A -> Q) (xs : list A) :
  (forall x, In x xs -> f x == g x) ->
  Qsum (List.map f xs) == Qsum (List.map g xs).
Proof.
  induction xs as [|x xs IH]; intros Hfg; simpl.
  - reflexivity.
  - rewrite (Hfg x (or_introl eq_refl)), IH; [reflexivity|].
    intros y Hy. apply Hfg. now right.
Qed.

Lemma num_or_zero (v : Q) : num_or (Some v) 0 == v.
Proof.
  unfold num_or. destruct (Qeq_bool v 0) eqn:E; [|reflexivity].
  apply Qeq_bool_iff in E. now rewrite E.
Qed.

(** ** Revenue, order count and average order *)

(** C7: total revenue is the sum of the transactions' totals, the order
    count is the number of transactions, the average order is revenue
    divided by the count for a non-empty list and 0 for the empty one, and
    on empty inputs every metric is 0. *)
Theorem salesMetrics_revenue_orders_average
    (T : list Transaction.t) (inventory : list InventoryItem.t)
    (branchNames : list string) (admin : bool) :
  let m := salesMetrics T inventory branchNames admin in
  Metrics.totalRevenue m == Qsum (List.map Transaction.total T)
  /\ Metrics.totalOrders m = length T
  /\ (T <> [] ->
      Metrics.averageOrder m
        == Qsum (List.map Transaction.total T) / Q_of_nat (length T))
  /\ (T = [] ->
      Metrics.totalRevenue m = 0 /\ Metrics.totalOrders m = 0%nat
      /\ Metrics.averageOrder m = 0 /\ Metrics.totalCOGS m = 0
      /\ Metrics.grossProfit m = 0)
  /\ salesMetrics [] [] branchNames admin = Metrics.mk 0 0 0 0 0 0 0.
Proof.
  cbv zeta. repeat split.
  - apply (fold_left_Qplus Transaction.total).
  - intros HT. simpl. destruct T as [|t T']; [congruence|].
    change (0 <? length (t :: T'))%nat with true. cbv iota.
    now rewrite (fold_left_Qplus Transaction.total).
  - subst T. reflexivity.
  - subst T. reflexivity.
  - subst T. reflexivity.
  - subst T. simpl. now destruct admin.
  - subst T. simpl. now destruct admin.
  - simpl. now destruct admin.
Qed.

Lemma salesMetrics_revenue_orders_average_witness :
  [sampleSale None [] 250] <> []
  /\ Metrics.averageOrder (salesMetrics [sampleSale None [] 250] [] ["Main"] true)
       == 250.
Proof.
  split; [discriminate|].
  destruct (salesMetrics_revenue_orders_average
              [sampleSale None [] 250] [] ["Main"] true) as (_ & _ & Havg & _).
  rewrite Havg; [reflexivity | discriminate].
Defined.

(** ** Cost of goods sold and gross profit *)

Lemma costPrice_times_quantity (inventory : list InventoryItem.t) (line : CartItem.t) :
  num_or (option_map InventoryItem.costPrice
            (find (fun inv => String.eqb (InventoryItem.id inv) (CartItem.id line))
                  inventory)) 0
    * CartItem.quantity line
  == lineCost_spec inventory line.
Proof.
  unfold lineCost_spec.
  destruct (find _ inventory) as [inv|]; cbn [option_map].
  - now rewrite num_or_zero.
  - unfold num_or. ring.
Qed.

(** C3: without the admin flag COGS and gross profit are 0 whatever the
    cost data; with it, COGS is the double sum of matched cost price times
    quantity (0 for an unmatched line) and gross profit is revenue minus
    COGS. *)
Theorem salesMetrics_cogs_admin_only
    (T : list Transaction.t) (inventory : list InventoryItem.t)
    (branchNames : list string) :
  Metrics.totalCOGS (salesMetrics T inventory branchNames false) = 0
  /\ Metrics.grossProfit (salesMetrics T inventory branchNames false) = 0
  /\ Metrics.totalCOGS (salesMetrics T inventory branchNames true)
       == totalCOGS_spec T inventory
  /\ Metrics.grossProfit (salesMetrics T inventory branchNames true)
       = Metrics.totalRevenue (salesMetrics T inventory branchNames true)
         - Metrics.totalCOGS (salesMetrics T inventory branchNames true)
  /\ Metrics.grossProfit (salesMetrics T inventory branchNames true)
       == Qsum (List.map Transaction.total T) - totalCOGS_spec T inventory.
Proof.
  assert (Hcogs : Metrics.totalCOGS (salesMetrics T inventory branchNames true)
                  == totalCOGS_spec T inventory).
  { simpl. unfold totalCOGS_spec.
    rewrite (fold_left_Qplus (fun t =>
      fold_left (fun itemSum item =>
        itemSum
        + num_or (option_map InventoryItem.costPrice
                    (find (fun inv =>
                             String.eqb (InventoryItem.id inv) (CartItem.id item))
                          inventory)) 0
          * CartItem.quantity item) (Transaction.items t) 0)).
    apply Qsum_map_ext. intros t _.
    rewrite (fold_left_Qplus (fun item =>
      num_or (option_map InventoryItem.costPrice
                (find (fun inv =>
                         String.eqb (InventoryItem.id inv) (CartItem.id item))
                      inventory)) 0
      * CartItem.quantity item)).
    apply Qsum_map_ext. intros line _. apply costPrice_times_quantity. }
  repeat split; try reflexivity; try exact Hcogs.
  change (Metrics.grossProfit (salesMetrics T inventory branchNames true))
    with (Metrics.totalRevenue (salesMetrics T inventory branchNames true)
          - Metrics.totalCOGS (salesMetrics T inventory branchNames true)).
  rewrite Hcogs.
  assert (Hrev : Metrics.totalRevenue (salesMetrics T inventory branchNames true)
                 == Qsum (List.map Transaction.total T))
    by apply (fold_left_Qplus Transaction.total).
  now rewrite Hrev.
Qed.

(** ** Reads of the stock table *)

Lemma includes_In (xs : list string) (x : string) :
  includes xs x = true <-> In x xs.
Proof.
  unfold includes. rewrite existsb_exists. split.
  - intros (y & Hy & E). apply String.eqb_eq in E. now subst y.
  - intros H. exists x. split; [exact H | apply String.eqb_refl].
Qed.

Lemma plainNames_cons (b : string) (bn : list string) :
  plainNames (b :: bn) <-> inherited b = false /\ plainNames bn.
Proof.
  unfold plainNames. split.
  - intros H. split; [apply H; now left | intros c Hc; apply H; now right].
  - intros [Hb Hbn] c [<-|Hc]; [exact Hb | now apply Hbn].
Qed.

(** A read that stays on own entries yields a rational, the on-hand
    quantity. *)
Lemma stockAt_plain (item : InventoryItem.t) (b : string) :
  inherited b = false \/ is_Some (InventoryItem.stock item !! b) ->
  exists q, stockAt item b = Num (Fin q) /\ q == onHand item b.
Proof.
  intros Hb. unfold stockAt, getProperty, onHand.
  destruct (InventoryItem.stock item !! b) as [[q|]|] eqn:E.
  - unfold js_or, truthy. destruct (Qeq_bool q 0) eqn:Eq; cbn [negb].
    + exists 0. split; [reflexivity|]. apply Qeq_bool_iff in Eq.
      now rewrite Eq.
    + exists q. split; reflexivity.
  - exists 0. split; reflexivity.
  - destruct Hb as [-> | [n Hn]]; [|discriminate Hn].
    exists 0. split; reflexivity.
Qed.

(** A read that finds no own entry under the name of a member of
    [Object.prototype] yields that member. *)
Lemma stockAt_inherited (item : InventoryItem.t) (b : string) :
  inherited b = true -> InventoryItem.stock item !! b = None ->
  stockAt item b = NonNumber.
Proof.
  intros Hb Hnone. unfold stockAt, getProperty. now rewrite Hnone, Hb.
Qed.

Lemma totalStock_plain (item : InventoryItem.t) (bn : list string) (a : Q) :
  plainNames bn ->
  exists q,
    fold_left (fun branchSum branch => js_add branchSum (stockAt item branch))
              bn (Num (Fin a)) = Num (Fin q)
    /\ q == a + unitsOnHand item bn.
Proof.
  revert a. induction bn as [|b bn IH]; intros a Hbn.
  - exists a. split; [reflexivity|]. unfold unitsOnHand. simpl. ring.
  - apply plainNames_cons in Hbn. destruct Hbn as [Hb Hbn].
    destruct (stockAt_plain item b (or_introl Hb)) as (q & Hq & Eq).
    cbn [fold_left]. rewrite Hq. cbn [js_add add_number].
    destruct (IH (a + q) Hbn) as (r & Hr & Er).
    exists r. split; [exact Hr|]. rewrite Er, Eq.
    unfold unitsOnHand. simpl. ring.
Qed.

Lemma fold_add_number {A : Type} (F : A -> number) (g : A -> Q)
    (xs : list A) (a : Q) :
  (forall x, In x xs -> exists q, F x = Fin q /\ q == g x) ->
  exists w,
    fold_left (fun sum x => add_number sum (F x)) xs (Fin a) = Fin w
    /\ w == a + Qsum (List.map g xs).
Proof.
  revert a. induction xs as [|x xs IH]; intros a HF.
  - exists a. split; [reflexivity|]. simpl. ring.
  - destruct (HF x (or_introl eq_refl)) as (q & Hq & Eq).
    cbn [fold_left]. rewrite Hq. cbn [add_number].
    destruct (IH (a + q)) as (w & Hw & Ew).
    { intros y Hy. apply HF. now right. }
    exists w. split; [exact Hw|]. rewrite Ew, Eq. simpl. ring.
Qed.

Lemma stockValue_plain (item : InventoryItem.t) (bn : list string) (c : Q) :
  plainNames bn ->
  exists q,
    js_mul (fold_left (fun branchSum branch =>
                         js_add branchSum (stockAt item branch))
                      bn (Num (Fin 0)))
           (Num (Fin c)) = Fin q
    /\ q == unitsOnHand item bn * c.
Proof.
  intros Hbn. destruct (totalStock_plain item bn 0 Hbn) as (u & Hu & Eu).
  rewrite Hu. exists (u * c). split; [reflexivity|]. rewrite Eu. ring.
Qed.

Lemma plainNames_Main : plainNames ["Main"].
Proof. intros b [<-|[]]. reflexivity. Qed.

(** ** Inventory valuation and weight *)

Lemma salesMetrics_weight_sum (T : list Transaction.t)
    (inv : list InventoryItem.t) (bn : list string) (admin : bool) :
  plainNames bn ->
  exists w,
    Metrics.totalInventoryWeight (salesMetrics T inv bn admin) = Fin w
    /\ w == totalInventoryWeight_spec inv bn.
Proof.
  intros Hbn. cbn [salesMetrics Metrics.totalInventoryWeight].
  destruct (fold_add_number
              (fun item =>
                 js_mul (fold_left (fun branchSum branch =>
                                      js_add branchSum (stockAt item branch))
                                   bn (Num (Fin 0)))
                        (Num (Fin (InventoryItem.weight item))))
              (fun item => unitsOnHand item bn * InventoryItem.weight item)
              inv 0) as (w & Hw & Ew).
  { intros item _. now apply stockValue_plain. }
  exists w. split; [exact Hw|]. rewrite Ew. unfold totalInventoryWeight_spec.
  ring.
Qed.

Lemma salesMetrics_value_sum (T : list Transaction.t)
    (inv : list InventoryItem.t) (bn : list string) :
  plainNames bn ->
  exists v,
    Metrics.inventoryValue (salesMetrics T inv bn true) = Fin v
    /\ v == inventoryValue_spec inv bn.
Proof.
  intros Hbn. cbn [salesMetrics Metrics.inventoryValue].
  destruct (fold_add_number
              (fun item =>
                 js_mul (fold_left (fun branchSum branch =>
                                      js_add branchSum (stockAt item branch))
                                   bn (Num (Fin 0)))
                        (Num (Fin (InventoryItem.costPrice item))))
              (fun item => unitsOnHand item bn * InventoryItem.costPrice item)
              inv 0) as (v & Hv & Ev).
  { intros item _. now apply stockValue_plain. }
  exists v. split; [exact Hv|]. rewrite Ev. unfold inventoryValue_spec. ring.
Qed.

(** C5, as the source has it by design, for branch names that are not
    names of members of [Object.prototype]: the valuation is the sum over
    items of units on hand times cost price when the admin flag is set and
    0 when it is not; the total weight is the sum of units on hand times
    unit weight for either value of the flag. *)
Theorem salesMetrics_inventory_value_weight
    (T : list Transaction.t) (inventory : list InventoryItem.t)
    (branchNames : list string) :
  plainNames branchNames ->
  (exists v,
     Metrics.inventoryValue (salesMetrics T inventory branchNames true) = Fin v
     /\ v == inventoryValue_spec inventory branchNames)
  /\ Metrics.inventoryValue (salesMetrics T inventory branchNames false) = Fin 0
  /\ forall admin : bool,
       exists w,
         Metrics.totalInventoryWeight
           (salesMetrics T inventory branchNames admin) = Fin w
         /\ w == totalInventoryWeight_spec inventory branchNames.
Proof.
  intros Hbn. split; [now apply salesMetrics_value_sum|].
  split; [reflexivity|]. intros admin. now apply salesMetrics_weight_sum.
Qed.

Lemma salesMetrics_inventory_value_weight_witness :
  plainNames ["Main"]
  /\ exists v,
       Metrics.inventoryValue
         (salesMetrics [] [sampleItem "feed-1" 10 5] ["Main"] true) = Fin v
       /\ v == 70.
Proof.
  split; [exact plainNames_Main|].
  destruct (salesMetrics_inventory_value_weight []
              [sampleItem "feed-1" 10 5] ["Main"] plainNames_Main)
    as ((v & Hv & Ev) & _).
  exists v. split; [exact Hv|]. rewrite Ev. reflexivity.
Defined.

(** C5 as stated fails without the admin flag: one item with 10 units on
    hand at cost 7 is valued 0, not 70. *)
Lemma inventoryValue_non_admin_counterexample :
  Metrics.inventoryValue
    (salesMetrics [] [sampleItem "feed-1" 10 5] ["Main"] false) = Fin 0
  /\ ~ (0 == inventoryValue_spec [sampleItem "feed-1" 10 5] ["Main"])
  /\ inventoryValue_spec [sampleItem "feed-1" 10 5] ["Main"] == 70.
Proof.
  split; [reflexivity|].
  split; [intros H; vm_compute in H; discriminate H | reflexivity].
Qed.

(** A branch that bears the name of a member of [Object.prototype] and has
    no entry in an item's stock table turns both figures into [NaN]. *)
Example inherited_branch_name_gives_NaN :
  Metrics.inventoryValue
    (salesMetrics [] [sampleItem "feed-1" 10 5] ["Main"; "constructor"] true)
  = NaN
  /\ Metrics.totalInventoryWeight
       (salesMetrics [] [sampleItem "feed-1" 10 5] ["Main"; "constructor"] true)
     = NaN.
Proof. split; reflexivity. Qed.

(** ** The access gate *)

Lemma denialMessage_carries_role (role : UserRole) :
  exists pre post : string, denialMessage role = pre ++ roleName role ++ post.
Proof. unfold denialMessage. eexists _, _. reflexivity. Qed.

(** C2: a module-change request is granted exactly when the module is in
    the role's allowed set; a granted request makes it the active module
    and touches nothing but the menu flag; a refused one returns the same
    state together with a message that carries the role name. *)
Theorem handleModuleChange_gate (st : App.state) (m : string) :
  let R := App.currentRole st in
  let r := handleModuleChange m st in
  (In m (allowedModules R) <-> snd r = None)
  /\ (In m (allowedModules R) ->
      App.activeModule (fst r) = m
      /\ App.isMobileMenuOpen (fst r) = false
      /\ App.currentRole (fst r) = App.currentRole st
      /\ App.inventory (fst r) = App.inventory st
      /\ App.allTransactions (fst r) = App.allTransactions st
      /\ App.customers (fst r) = App.customers st)
  /\ (~ In m (allowedModules R) ->
      fst r = st
      /\ snd r = Some (denialMessage R)
      /\ exists pre post : string, denialMessage R = pre ++ roleName R ++ post)
  /\ allowedModules R <> [].
Proof.
  cbv zeta. unfold handleModuleChange.
  destruct (includes (allowedModules (App.currentRole st)) m) eqn:E.
  - apply includes_In in E. repeat split; simpl; auto; try tauto.
    now destruct (App.currentRole st).
  - assert (Hnot : ~ In m (allowedModules (App.currentRole st))).
    { intros H. apply includes_In in H. congruence. }
    repeat split; simpl; try tauto; try discriminate.
    + apply denialMessage_carries_role.
    + now destruct (App.currentRole st).
Qed.

Lemma handleModuleChange_gate_witness :
  (In "pos" (allowedModules SalesRepresentative)
   /\ App.activeModule
        (fst (handleModuleChange "pos" (sampleState SalesRepresentative))) = "pos")
  /\ (~ In "finance" (allowedModules SalesRepresentative)
      /\ fst (handleModuleChange "finance" (sampleState SalesRepresentative))
         = sampleState SalesRepresentative).
Proof.
  assert (Hpos : In "pos" (allowedModules SalesRepresentative)).
  { apply includes_In. reflexivity. }
  assert (Hfin : ~ In "finance" (allowedModules SalesRepresentative)).
  { intros H. apply includes_In in H. discriminate H. }
  split; (split; [assumption|]).
  - destruct (handleModuleChange_gate (sampleState SalesRepresentative) "pos")
      as (_ & Hok & _).
    apply Hok. exact Hpos.
  - destruct (handleModuleChange_gate (sampleState SalesRepresentative) "finance")
      as (_ & _ & Hno & _).
    apply Hno. exact Hfin.
Defined.

(** C10: the capabilities are functions of the role alone and agree with
    the module table: the finance module is allowed exactly for the roles
    that may view financials, and a role that may edit inventory or prices
    has the inventory module. *)
Theorem capabilities_consistent_with_modules (R : UserRole) :
  (In "finance" (allowedModules R) <-> canViewFinancials R = true)
  /\ includes (allowedModules R) "finance" = canViewFinancials R
  /\ (canEditInventory R = true -> In "inventory" (allowedModules R))
  /\ (canEditPrices R = true -> In "inventory" (allowedModules R))
  /\ (isAdmin R = true ->
      forall R' : UserRole, incl (allowedModules R') (allowedModules R)).
Proof.
  assert (Hfin : includes (allowedModules R) "finance" = canViewFinancials R)
    by now destruct R.
  repeat split.
  - intros H. apply includes_In in H. congruence.
  - intros H. apply includes_In. congruence.
  - exact Hfin.
  - intros H. apply includes_In. destruct R; try discriminate H. reflexivity.
  - intros H. apply includes_In. destruct R; try discriminate H. reflexivity.
  - intros H R' x Hx. apply includes_In.
    assert (Hall : forallb (includes (allowedModules R)) (allowedModules R') = true)
      by (destruct R; try discriminate H; now destruct R').
    rewrite forallb_forall in Hall. now apply Hall.
Qed.

Lemma capabilities_consistent_with_modules_witness :
  canEditInventory OwnerAdmin = true /\ In "inventory" (allowedModules OwnerAdmin).
Proof.
  split; [reflexivity|].
  destruct (capabilities_consistent_with_modules OwnerAdmin) as (_ & _ & H & _).
  apply H. reflexivity.
Defined.

(** ** Expiration alerts *)

Lemma fold_left_Zmin_spec (xs : list Z) (x : Z) :
  In (fold_left Z.min xs x) (x :: xs)
  /\ forall y, In y (x :: xs) -> (fold_left Z.min xs x <= y)%Z.
Proof.
  revert x. induction xs as [|z xs IH]; intros x; simpl.
  - split; [now left | intros y [<-|[]]; lia].
  - destruct (IH (Z.min x z)) as [Hin Hle]. split.
    + destruct Hin as [E|Hin]; [|right; now right].
      rewrite <- E. destruct (Z.min_spec x z) as [[_ ->]|[_ ->]]; auto.
    + intros y [<-|[<-|Hy]].
      * specialize (Hle (Z.min x z) (or_introl eq_refl)). lia.
      * specialize (Hle (Z.min x z) (or_introl eq_refl)). lia.
      * apply Hle. now right.
Qed.

Lemma Math_min_int_spec (xs : list Z) :
  xs <> [] ->
  exists m, Math_min_int xs = Some m /\ In m xs /\ forall y, In y xs -> (m <= y)%Z.
Proof.
  destruct xs as [|x xs]; [congruence|]. intros _.
  exists (fold_left Z.min xs x). split; [reflexivity|].
  apply fold_left_Zmin_spec.
Qed.

Lemma inWindow_bool (now date : Z) :
  ((daysUntilExpiration now date <=? 20)%Z
   && (0 <? daysUntilExpiration now date)%Z)%bool = true
  <-> inWindow now date.
Proof. unfold inWindow. rewrite andb_true_iff, Z.leb_le, Z.ltb_lt. tauto. Qed.

Lemma pushExpirationAlert_acc (now : Z) (item : InventoryItem.t)
    (alerts : list ExpirationAlert.t) (branch : string) :
  pushExpirationAlert now item alerts branch
  = match pushExpirationAlert now item [] branch with
    | Returned pushed => Returned (alerts ++ pushed)%list
    | TypeError => TypeError
    end.
Proof.
  unfold pushExpirationAlert.
  destruct (InventoryItem.expirationDates item) as [byBranch|];
    [|now rewrite app_nil_r].
  destruct (getProperty byBranch branch) as [dates| |];
    [|reflexivity|now rewrite app_nil_r].
  cbv zeta. destruct (0 <? length _)%nat; [reflexivity | now rewrite app_nil_r].
Qed.

(** The pair's read lands on a member of [Object.prototype]. *)
Lemma pushExpirationAlert_throws (now : Z) (item : InventoryItem.t)
    (alerts : list ExpirationAlert.t) (branch : string) :
  pushExpirationAlert now item alerts branch = TypeError
  <-> exists byBranch,
        InventoryItem.expirationDates item = Some byBranch
        /\ byBranch !! branch = None
        /\ inherited branch = true.
Proof.
  unfold pushExpirationAlert, getProperty.
  destruct (InventoryItem.expirationDates item) as [byBranch|].
  - destruct (byBranch !! branch) as [dates|] eqn:E.
    + cbv zeta. split.
      * destruct (0 <? length _)%nat; discriminate.
      * intros (m & Hm & Hnone & _). congruence.
    + destruct (inherited branch).
      * split; [intros _; now exists byBranch | reflexivity].
      * split; [discriminate | intros (m & _ & _ & H); discriminate H].
  - split; [discriminate | intros (m & H & _); discriminate H].
Qed.

Lemma pushExpirationAlert_returns (now : Z) (item : InventoryItem.t)
    (alerts : list ExpirationAlert.t) (branch : string) :
  pushExpirationAlert now item [] branch <> TypeError ->
  pushExpirationAlert now item alerts branch
  = Returned (alerts ++ alertsOfPair now item branch)%list.
Proof.
  intros Hok. rewrite pushExpirationAlert_acc. unfold alertsOfPair.
  now destruct (pushExpirationAlert now item [] branch).
Qed.

Lemma pushExpirationAlert_plain (now : Z) (item : InventoryItem.t)
    (alerts : list ExpirationAlert.t) (branch : string) :
  inherited branch = false ->
  pushExpirationAlert now item alerts branch
  = Returned (alerts ++ alertsOfPair now item branch)%list.
Proof.
  intros Hb. apply pushExpirationAlert_returns. intros H.
  apply pushExpirationAlert_throws in H. destruct H as (m & _ & _ & H).
  congruence.
Qed.

Lemma fold_bind_TypeError {A B : Type} (f : A -> B -> outcome A) (xs : list B) :
  fold_left (fun acc x => bind acc (fun a => f a x)) xs TypeError = TypeError.
Proof. induction xs as [|x xs IH]; [reflexivity | exact IH]. Qed.

(** The inner loop over the branches either throws, at a pair whose read
    is inherited, or returns the alerts of the pairs in order. *)
Lemma fold_branches_cases (now : Z) (item : InventoryItem.t)
    (bn : list string) (alerts : list ExpirationAlert.t) :
  (fold_left (fun acc branch =>
       bind acc (fun alerts' => pushExpirationAlert now item alerts' branch))
     bn (Returned alerts) = TypeError
   /\ exists b, In b bn /\ pushExpirationAlert now item [] b = TypeError)
  \/ (fold_left (fun acc branch =>
        bind acc (fun alerts' => pushExpirationAlert now item alerts' branch))
      bn (Returned alerts)
      = Returned (alerts ++ flat_map (alertsOfPair now item) bn)%list
      /\ forall b, In b bn -> pushExpirationAlert now item [] b <> TypeError).
Proof.
  revert alerts. induction bn as [|b bn IH]; intros alerts.
  - right. split; [simpl; now rewrite app_nil_r | intros b []].
  - cbn [fold_left bind].
    destruct (pushExpirationAlert now item [] b) as [pushed|] eqn:E.
    + rewrite (pushExpirationAlert_returns now item alerts b) by congruence.
      destruct (IH (alerts ++ alertsOfPair now item b)%list)
        as [[Hthrow (c & Hc & Hpair)] | [Hret Hall]].
      * left. split; [exact Hthrow|]. exists c. split; [now right | exact Hpair].
      * right. split.
        -- rewrite Hret. cbn [flat_map]. now rewrite app_assoc.
        -- intros c [<-|Hc]; [congruence | now apply Hall].
    + left. rewrite pushExpirationAlert_acc, E. split.
      * apply (fold_bind_TypeError
                 (fun alerts' branch => pushExpirationAlert now item alerts' branch)).
      * exists b. split; [now left | exact E].
Qed.

Lemma expirationAlerts_cases_from (now : Z) (inv : list InventoryItem.t)
    (bn : list string) (alerts : list ExpirationAlert.t) :
  (fold_left (fun acc item =>
       bind acc (fun alerts' =>
         fold_left (fun acc' branch =>
             bind acc' (fun alerts'' =>
               pushExpirationAlert now item alerts'' branch))
           bn (Returned alerts')))
     inv (Returned alerts) = TypeError
   /\ exists item b,
        In item inv /\ In b bn /\ pushExpirationAlert now item [] b = TypeError)
  \/ (fold_left (fun acc item =>
        bind acc (fun alerts' =>
          fold_left (fun acc' branch =>
              bind acc' (fun alerts'' =>
                pushExpirationAlert now item alerts'' branch))
            bn (Returned alerts')))
      inv (Returned alerts)
      = Returned
          (alerts
           ++ flat_map (fun item => flat_map (alertsOfPair now item) bn) inv)%list
      /\ forall item b, In item inv -> In b bn ->
           pushExpirationAlert now item [] b <> TypeError).
Proof.
  revert alerts. induction inv as [|item inv IH]; intros alerts.
  - right. split; [simpl; now rewrite app_nil_r | intros item b []].
  - cbn [fold_left bind].
    destruct (fold_branches_cases now item bn alerts)
      as [[Hthrow (b & Hb & Hpair)] | [Hret Hall]].
    + left. rewrite Hthrow. split.
      * apply (fold_bind_TypeError
                 (fun alerts' item0 =>
                    fold_left (fun acc' branch =>
                        bind acc' (fun alerts'' =>
                          pushExpirationAlert now item0 alerts'' branch))
                      bn (Returned alerts'))).
      * exists item, b. split; [now left | split; assumption].
    + rewrite Hret.
      destruct (IH (alerts ++ flat_map (alertsOfPair now item) bn)%list)
        as [[Hthrow (it & b & Hit & Hb & Hpair)] | [Hret' Hall']].
      * left. split; [exact Hthrow|]. exists it, b.
        split; [now right | split; assumption].
      * right. split.
        -- rewrite Hret'. cbn [flat_map]. now rewrite app_assoc.
        -- intros it b [<-|Hit] Hb; [now apply Hall | now apply Hall'].
Qed.

(** The derivation throws exactly when some pair's read is inherited, and
    otherwise returns the alerts of the pairs in inventory and branch
    order. *)
Lemma expirationAlerts_cases (now : Z) (inv : list InventoryItem.t)
    (bn : list string) :
  (expirationAlerts now inv bn = TypeError
   /\ exists item b,
        In item inv /\ In b bn /\ pushExpirationAlert now item [] b = TypeError)
  \/ (expirationAlerts now inv bn
      = Returned (flat_map (fun item => flat_map (alertsOfPair now item) bn) inv)
      /\ forall item b, In item inv -> In b bn ->
           pushExpirationAlert now item [] b <> TypeError).
Proof. apply (expirationAlerts_cases_from now inv bn []). Qed.

Lemma expirationAlerts_plain (now : Z) (inv : list InventoryItem.t)
    (bn : list string) :
  plainNames bn ->
  expirationAlerts now inv bn
  = Returned (flat_map (fun item => flat_map (alertsOfPair now item) bn) inv).
Proof.
  intros Hbn.
  destruct (expirationAlerts_cases now inv bn)
    as [[_ (item & b & _ & Hb & Hthrow)] | [Hret _]]; [|exact Hret].
  apply pushExpirationAlert_throws in Hthrow.
  destruct Hthrow as (m & _ & _ & Hinh). rewrite (Hbn b Hb) in Hinh.
  discriminate Hinh.
Qed.

Lemma alertsOfPair_single (now : Z) (item : InventoryItem.t) (branch : string) :
  let expiring :=
    List.filter (fun date =>
      ((daysUntilExpiration now date <=? 20)%Z
       && (0 <? daysUntilExpiration now date)%Z)%bool) (batchesAt item branch) in
  alertsOfPair now item branch
  = match expiring with
    | [] => []
    | _ :: _ =>
        [ExpirationAlert.mk (InventoryItem.id item ++ "-" ++ branch)
           (InventoryItem.name item) branch
           (Math_min_int (List.map (daysUntilExpiration now) expiring))
           "expiration"]
    end.
Proof.
  unfold alertsOfPair, pushExpirationAlert, getProperty, batchesAt.
  destruct (InventoryItem.expirationDates item) as [byBranch|]; [|reflexivity].
  destruct (byBranch !! branch) as [dates|];
    [|now destruct (inherited branch)].
  cbv zeta. now destruct (List.filter _ dates).
Qed.

Lemma daysUntilExpiration_bounds (now date : Z) :
  let d := daysUntilExpiration now date in
  ((d - 1) * 86400000 < date - now <= d * 86400000)%Z.
Proof.
  cbv zeta. unfold daysUntilExpiration, Math_ceil, msPerDay.
  change (1000 * 60 * 60 * 24)%Z with 86400000%Z.
  set (x := (inject_Z date - inject_Z now) / inject_Z 86400000).
  assert (Hx : x * inject_Z 86400000 == inject_Z (date - now)).
  { unfold x, Z.sub. rewrite inject_Z_plus, inject_Z_opp. field. }
  assert (Hpos : 0 < inject_Z 86400000) by reflexivity.
  pose proof (Qle_ceiling x) as Hup.
  pose proof (Qceiling_lt x) as Hlo.
  split.
  - apply (Qmult_lt_r _ _ _ Hpos) in Hlo. rewrite Hx in Hlo.
    rewrite <- inject_Z_mult in Hlo. now rewrite <- Zlt_Qlt in Hlo.
  - apply (Qmult_le_r _ _ _ Hpos) in Hup. rewrite Hx in Hup.
    rewrite <- inject_Z_mult in Hup. now rewrite <- Zle_Qle in Hup.
Qed.

(** C4, as the source has it by design, for branch names that are not
    names of members of [Object.prototype]: days-until-expiration is the
    ceiling of the remaining time over one day; the alerts are produced
    pair by pair in inventory and branch order; a pair produces one
    exactly when at least one of its batches has 0 < days <= 20, and the
    alert carries the least days-left among those qualifying batches.  A
    batch 10 days out alerts with 10; batches 25 days out or already
    expired do not. *)
Theorem expirationAlerts_window (now : Z) :
  (forall (inv : list InventoryItem.t) (bn : list string),
     plainNames bn ->
     expirationAlerts now inv bn
     = Returned
         (flat_map (fun item => flat_map (alertsOfPair now item) bn) inv))
  /\ (forall date : Z,
        daysUntilExpiration now date
        = Qceiling ((inject_Z date - inject_Z now) / inject_Z 86400000)
        /\ ((daysUntilExpiration now date - 1) * 86400000 < date - now
            <= daysUntilExpiration now date * 86400000)%Z)
  /\ (forall (item : InventoryItem.t) (branch : string),
        inherited branch = false ->
        pushExpirationAlert now item [] branch
        = Returned (alertsOfPair now item branch)
        /\ ((exists date, In date (batchesAt item branch) /\ inWindow now date)
            <-> alertsOfPair now item branch <> [])
        /\ forall a : ExpirationAlert.t,
             In a (alertsOfPair now item branch) ->
             alertsOfPair now item branch = [a]
             /\ ExpirationAlert.branch a = branch
             /\ ExpirationAlert.name a = InventoryItem.name item
             /\ exists date,
                  In date (batchesAt item branch)
                  /\ inWindow now date
                  /\ ExpirationAlert.daysLeft a
                     = Some (daysUntilExpiration now date)
                  /\ forall date',
                       In date' (batchesAt item branch) -> inWindow now date' ->
                       (daysUntilExpiration now date
                        <= daysUntilExpiration now date')%Z)
  /\ (exists alerts,
        expirationAlerts 1700000000000
          [sampleBatches [1700000000000 + 10 * 86400000]%Z] ["Main"]
        = Returned alerts
        /\ List.map ExpirationAlert.daysLeft alerts = [Some 10%Z])
  /\ expirationAlerts 1700000000000
       [sampleBatches [1700000000000 + 25 * 86400000;
                       1700000000000 - 86400000;
                       1700000000000]%Z] ["Main"]
     = Returned [].
Proof.
  split; [intros; now apply expirationAlerts_plain|].
  split; [intros date; split; [reflexivity | apply daysUntilExpiration_bounds]|].
  split; [|split; [eexists; split; reflexivity | reflexivity]].
  intros item branch Hb.
  split; [apply (pushExpirationAlert_plain now item [] branch Hb)|].
  rewrite alertsOfPair_single. cbv zeta.
  destruct (List.filter _ (batchesAt item branch)) as [|d rest] eqn:E.
  - split.
    + split; [|congruence]. intros (date & Hin & Hwin).
      assert (Hd : In date []); [|destruct Hd].
      rewrite <- E. apply filter_In. split; [exact Hin | now apply inWindow_bool].
    + intros a [].
  - split.
    + split; [discriminate|]. intros _. exists d.
      assert (Hd : In d (d :: rest)) by now left.
      rewrite <- E in Hd. apply filter_In in Hd.
      split; [tauto | now apply inWindow_bool].
    + intros a [<- | []].
      cbn [ExpirationAlert.branch ExpirationAlert.name ExpirationAlert.daysLeft].
      split; [reflexivity|]. split; [reflexivity|]. split; [reflexivity|].
      destruct (Math_min_int_spec
                  (List.map (daysUntilExpiration now) (d :: rest)))
        as (m & Hm & Hin & Hle); [discriminate|].
      apply in_map_iff in Hin. destruct Hin as (date & <- & Hdate).
      rewrite <- E in Hdate. apply filter_In in Hdate.
      destruct Hdate as [Hbatch Hwin]. apply inWindow_bool in Hwin.
      exists date. split; [exact Hbatch|]. split; [exact Hwin|].
      split; [exact Hm|].
      intros date' Hin' Hwin'. apply Hle. apply in_map. rewrite <- E.
      apply filter_In. split; [exact Hin' | now apply inWindow_bool].
Qed.

Lemma expirationAlerts_window_witness :
  inherited "Main" = false
  /\ pushExpirationAlert 0 (sampleBatches [864000000%Z]) [] "Main"
     = Returned
         [ExpirationAlert.mk "med-1-Main" "Vitaminas" "Main" (Some 10%Z)
            "expiration"].
Proof.
  split; [reflexivity|].
  destruct (expirationAlerts_window 0) as (_ & _ & H & _).
  destruct (H (sampleBatches [864000000%Z]) "Main" eq_refl) as (Hpush & _).
  rewrite Hpush. reflexivity.
Defined.

(** C4 as stated fails when an expired batch sits next to one in the
    window: with batches 5 days past and 10 days ahead the nearest value
    is -5, outside the window, yet the pair alerts with 10 days left. *)
Lemma expiration_nearest_batch_counterexample :
  let item := sampleBatches [(-5) * 86400000; 10 * 86400000]%Z in
  (exists alerts,
     pushExpirationAlert 0 item [] "Main" = Returned alerts
     /\ List.map ExpirationAlert.daysLeft alerts = [Some 10%Z])
  /\ Math_min_int (List.map (daysUntilExpiration 0) (batchesAt item "Main"))
     = Some (-5)%Z
  /\ ~ nearestInWindow_spec 0 item "Main".
Proof.
  cbv zeta. split; [eexists; split; reflexivity|]. split; [reflexivity|].
  intros (m & Hm & Hwin).
  assert (E : Math_min_int
                (List.map (daysUntilExpiration 0)
                   (batchesAt (sampleBatches [(-5) * 86400000; 10 * 86400000]%Z)
                              "Main")) = Some (-5)%Z) by reflexivity.
  rewrite E in Hm. injection Hm as <-. lia.
Qed.

(** For a branch that bears the name of a member of [Object.prototype] and
    has no entry in the item's table of expiration dates, the derivation
    throws and yields neither list of alerts. *)
Example inherited_branch_name_throws :
  expirationAlerts 0 [sampleBatches [864000000%Z]] ["Main"; "constructor"]
  = TypeError
  /\ alertsMemo 0 [sampleBatches [864000000%Z]] ["Main"; "constructor"]
     = TypeError.
Proof. split; reflexivity. Qed.

(** ** Low-stock alerts *)

Lemma Qmin_cases (a b : Q) : Qmin a b = a \/ Qmin a b = b.
Proof.
  unfold Qmin, GenericMinMax.gmin. destruct (a ?= b)%Q; auto.
Qed.

Lemma fold_left_Qmin_le (xs : list Q) (x : Q) :
  fold_left Qmin xs x <= x
  /\ forall y, In y xs -> fold_left Qmin xs x <= y.
Proof.
  revert x. induction xs as [|z xs IH]; intros x; simpl.
  - split; [apply Qle_refl | tauto].
  - destruct (IH (Qmin x z)) as [Hacc Hrest]. split.
    + eapply Qle_trans; [exact Hacc | apply Q.le_min_l].
    + intros y [->|Hy]; [|now apply Hrest].
      eapply Qle_trans; [exact Hacc | apply Q.le_min_r].
Qed.

Lemma fold_left_Qmin_In (xs : list Q) (x : Q) :
  In (fold_left Qmin xs x) (x :: xs).
Proof.
  revert x. induction xs as [|z xs IH]; intros x; simpl.
  - now left.
  - destruct (IH (Qmin x z)) as [E|Hin].
    + rewrite <- E. destruct (Qmin_cases x z) as [-> | ->]; auto.
    + right. now right.
Qed.

Lemma fold_left_min_number (xs : list Q) (x : Q) :
  fold_left min_number (List.map Fin xs) (Fin x) = Fin (fold_left Qmin xs x).
Proof.
  revert x. induction xs as [|z xs IH]; intros x; [reflexivity|].
  cbn [List.map fold_left min_number]. apply IH.
Qed.

(** On operands that are all rationals, [Math.min] is the least of
    them. *)
Lemma Math_min_rationals (qs : list Q) :
  qs <> [] ->
  exists m,
    Math_min (List.map (fun q => Num (Fin q)) qs) = Some (Fin m)
    /\ In m qs /\ forall y, In y qs -> m <= y.
Proof.
  destruct qs as [|x qs]; [congruence|]. intros _.
  exists (fold_left Qmin qs x). split.
  - unfold Math_min, Math_min_with. rewrite List.map_map.
    cbn [List.map toNumber]. f_equal.
    rewrite <- (fold_left_min_number qs x). f_equal.
  - split; [apply fold_left_Qmin_In|].
    destruct (fold_left_Qmin_le qs x) as [Hx Hxs].
    intros y [<-|Hy]; [exact Hx | now apply Hxs].
Qed.

Lemma stockAt_values (item : InventoryItem.t) (bn : list string) :
  plainNames bn ->
  exists qs,
    List.map (fun branch => stockAt item branch) bn
    = List.map (fun q => Num (Fin q)) qs
    /\ Forall2 (fun q b => q == onHand item b) qs bn.
Proof.
  induction bn as [|b bn IH]; intros Hbn.
  - exists []. split; [reflexivity | constructor].
  - apply plainNames_cons in Hbn. destruct Hbn as [Hb Hbn].
    destruct (IH Hbn) as (qs & Hqs & Hall).
    destruct (stockAt_plain item b (or_introl Hb)) as (q & Hq & Eq).
    exists (q :: qs). split; [cbn [List.map]; now rewrite Hq, Hqs|].
    now constructor.
Qed.

Lemma js_le_lowAt (item : InventoryItem.t) (b : string) :
  inherited b = false \/ is_Some (InventoryItem.stock item !! b) ->
  js_le (stockAt item b) (Num (Fin (InventoryItem.lowStockThreshold item))) = true
  <-> lowAt item b.
Proof.
  intros Hb. destruct (stockAt_plain item b Hb) as (q & Hq & Eq).
  rewrite Hq. cbn [js_le toNumber]. unfold lowAt. rewrite Qle_bool_iff.
  now rewrite Eq.
Qed.

Lemma lowStockAlerts_app (inv1 inv2 : list InventoryItem.t) (bn : list string) :
  lowStockAlerts (inv1 ++ inv2)%list bn
  = (lowStockAlerts inv1 bn ++ lowStockAlerts inv2 bn)%list.
Proof. unfold lowStockAlerts. now rewrite List.filter_app, List.map_app. Qed.

Lemma lowStockAlerts_In (inv : list InventoryItem.t) (bn : list string)
    (a : StockAlert.t) :
  In a (lowStockAlerts inv bn)
  <-> exists item, In item inv /\ In a (lowStockAlerts [item] bn).
Proof.
  induction inv as [|item inv IH].
  - simpl. split; [tauto | intros (? & [] & _)].
  - change (item :: inv) with ([item] ++ inv)%list.
    rewrite lowStockAlerts_app, in_app_iff, IH. split.
    + intros [H | (it & Hit & H)].
      * exists item. split; [now left | exact H].
      * exists it. split; [now right | exact H].
    + intros (it & [<- | Hit] & H); [now left | right; eauto].
Qed.

Lemma lowStockAlerts_single (item : InventoryItem.t) (bn : list string) :
  lowStockAlerts [item] bn
  = if existsb (fun branch =>
         js_le (stockAt item branch)
               (Num (Fin (InventoryItem.lowStockThreshold item)))) bn
    then [StockAlert.mk (InventoryItem.id item) (InventoryItem.name item)
            (List.filter (fun branch =>
               js_le (stockAt item branch)
                     (Num (Fin (InventoryItem.lowStockThreshold item)))) bn)
            (Math_min (List.map (fun branch => stockAt item branch) bn))
            "stock"]
    else [].
Proof.
  unfold lowStockAlerts. simpl. now destruct (existsb _ bn).
Qed.

Lemma lowest_plain (item : InventoryItem.t) (bn : list string) :
  plainNames bn -> bn <> [] ->
  exists m,
    Math_min (List.map (fun branch => stockAt item branch) bn) = Some (Fin m)
    /\ (exists b, In b bn /\ m == onHand item b)
    /\ forall b, In b bn -> m <= onHand item b.
Proof.
  intros Hbn Hne. destruct (stockAt_values item bn Hbn) as (qs & Hqs & Hall).
  destruct (Math_min_rationals qs) as (m & Hm & Hin & Hle).
  { intros ->. inversion Hall. congruence. }
  exists m. rewrite Hqs. split; [exact Hm|]. split.
  - clear Hm Hle Hqs. induction Hall as [|q b qs bn' Hq Hall IH];
      [destruct Hin|].
    destruct Hin as [<-|Hin].
    + exists b. split; [now left | exact Hq].
    + destruct IH as (c & Hc & Ec).
      * intros c Hc. apply Hbn. now right.
      * intros ->. inversion Hall; subst. destruct Hin.
      * exact Hin.
      * exists c. split; [now right | exact Ec].
  - intros b Hb. clear Hm Hin Hqs.
    induction Hall as [|q c qs bn' Hq Hall IH]; [destruct Hb|].
    destruct Hb as [<-|Hb].
    + rewrite <- Hq. apply Hle. now left.
    + apply IH.
      * intros d Hd. apply Hbn. now right.
      * intros ->. destruct Hb.
      * intros y Hy. apply Hle. now right.
      * exact Hb.
Qed.

Lemma alertsMemo_plain (now : Z) (inv : list InventoryItem.t) (bn : list string) :
  plainNames bn ->
  exists expAlerts,
    alertsMemo now inv bn = Returned (lowStockAlerts inv bn, expAlerts).
Proof.
  intros Hbn. unfold alertsMemo. rewrite (expirationAlerts_plain now inv bn Hbn).
  eexists. reflexivity.
Qed.

(** C6.  For branch names that are not names of members of
    [Object.prototype] the claim holds: the alerts are produced item by
    item in inventory order; an item produces one exactly when some named
    branch holds at most the threshold (a missing entry counting 0); the
    record lists exactly the named branches at or below the threshold and
    the least on-hand quantity over all named branches; on-hand 5 with
    threshold 5 alerts for Main, on-hand 6 does not.  For a branch named
    constructor the claim fails: an item without an entry there has 0 on
    hand, below its threshold 5, and no alert is produced. *)
Theorem lowStockAlerts_exactly_low_items :
  (forall bn : list string,
     plainNames bn ->
     (forall inv1 inv2 : list InventoryItem.t,
        lowStockAlerts (inv1 ++ inv2)%list bn
        = (lowStockAlerts inv1 bn ++ lowStockAlerts inv2 bn)%list)
     /\ (forall (inv : list InventoryItem.t) (a : StockAlert.t),
           In a (lowStockAlerts inv bn)
           <-> exists item, In item inv /\ In a (lowStockAlerts [item] bn))
     /\ (forall item : InventoryItem.t,
           (exists b, In b bn /\ lowAt item b) <-> lowStockAlerts [item] bn <> [])
     /\ (forall (item : InventoryItem.t) (a : StockAlert.t),
           In a (lowStockAlerts [item] bn) ->
           lowStockAlerts [item] bn = [a]
           /\ StockAlert.id a = InventoryItem.id item
           /\ StockAlert.name a = InventoryItem.name item
           /\ (forall b, In b (StockAlert.branches a) <-> In b bn /\ lowAt item b)
           /\ exists m,
                StockAlert.lowestStock a = Some (Fin m)
                /\ (exists b, In b bn /\ m == onHand item b)
                /\ forall b, In b bn -> m <= onHand item b)
     /\ (forall (now : Z) (inv : list InventoryItem.t),
           exists expAlerts,
             alertsMemo now inv bn
             = Returned (lowStockAlerts inv bn, expAlerts)))
  /\ List.map StockAlert.branches
       (lowStockAlerts [sampleItem "feed-1" 5 5] ["Main"]) = [["Main"]]
  /\ lowStockAlerts [sampleItem "feed-1" 6 5] ["Main"] = []
  /\ (In "constructor" ["constructor"]
      /\ lowAt (sampleItem "feed-1" 10 5) "constructor"
      /\ lowStockAlerts [sampleItem "feed-1" 10 5] ["constructor"] = []).
Proof.
  split; [|split; [reflexivity|split; [reflexivity|]]].
  - intros bn Hbn.
    assert (Hlow : forall item b, In b bn ->
              js_le (stockAt item b)
                    (Num (Fin (InventoryItem.lowStockThreshold item))) = true
              <-> lowAt item b).
    { intros item b Hb. apply js_le_lowAt. left. now apply Hbn. }
    split; [intros; apply lowStockAlerts_app|].
    split; [intros; apply lowStockAlerts_In|].
    split; [|split; [|intros; now apply alertsMemo_plain]].
    + intros item. rewrite lowStockAlerts_single.
      destruct (existsb _ bn) eqn:E.
      * split; [discriminate|]. intros _.
        apply existsb_exists in E. destruct E as (b & Hb & Hle).
        exists b. split; [exact Hb | now apply Hlow].
      * split; [|congruence]. intros (b & Hb & Hle).
        assert (existsb (fun branch =>
                  js_le (stockAt item branch)
                        (Num (Fin (InventoryItem.lowStockThreshold item)))) bn
                = true).
        { apply existsb_exists. exists b. split; [exact Hb | now apply Hlow]. }
        congruence.
    + intros item a. rewrite lowStockAlerts_single.
      destruct (existsb _ bn) eqn:E; [|intros []].
      intros [<- | []]. cbn [StockAlert.id StockAlert.name StockAlert.branches
                              StockAlert.lowestStock].
      split; [reflexivity|]. split; [reflexivity|]. split; [reflexivity|]. split.
      * intros b. rewrite filter_In. split.
        -- intros [Hb Hle]. split; [exact Hb | now apply Hlow].
        -- intros [Hb Hle]. split; [exact Hb | now apply Hlow].
      * apply existsb_exists in E. destruct E as (b0 & Hb0 & _).
        apply lowest_plain; [exact Hbn|]. intros ->. destruct Hb0.
  - split; [now left|]. split; [|reflexivity].
    unfold lowAt. vm_compute. discriminate.
Qed.

Lemma lowStockAlerts_exactly_low_items_witness :
  plainNames ["Main"]
  /\ In (StockAlert.mk "feed-1" "Concentrado" ["Main"] (Some (Fin 5)) "stock")
        (lowStockAlerts [sampleItem "feed-1" 5 5] ["Main"])
  /\ lowStockAlerts [sampleItem "feed-1" 5 5] ["Main"]
     = [StockAlert.mk "feed-1" "Concentrado" ["Main"] (Some (Fin 5)) "stock"].
Proof.
  assert (Hin : In (StockAlert.mk "feed-1" "Concentrado" ["Main"]
                      (Some (Fin 5)) "stock")
                   (lowStockAlerts [sampleItem "feed-1" 5 5] ["Main"])).
  { vm_compute. left. reflexivity. }
  split; [exact plainNames_Main|]. split; [exact Hin|].
  destruct lowStockAlerts_exactly_low_items as (H & _).
  destruct (H ["Main"] plainNames_Main) as (_ & _ & _ & Hone & _).
  apply (Hone _ _ Hin).
Defined.

(** ** Transaction commit: inventory *)

Lemma deductStock_unmatched (now : Z) (t : Transaction.t) (item : InventoryItem.t) :
  soldLine t item = None -> deductStock now t item = item.
Proof. unfold soldLine, deductStock. now intros ->. Qed.

Lemma deductStock_cases (now : Z) (t : Transaction.t) (item : InventoryItem.t) :
  (soldLine t item = None /\ deductStock now t item = item)
  \/ (exists sold,
        soldLine t item = Some sold
        /\ In sold (Transaction.items t)
        /\ InventoryItem.stock (deductStock now t item)
           = <[Transaction.branch t :=
                 Math_max (Fin 0)
                   (js_sub (stockAt item (Transaction.branch t))
                           (Num (Fin (CartItem.quantity sold))))]>
               (InventoryItem.stock item)
        /\ InventoryItem.stockWeight (deductStock now t item)
           = <[Transaction.branch t :=
                 js_mul
                   (Num (Math_max (Fin 0)
                           (js_sub (stockAt item (Transaction.branch t))
                                   (Num (Fin (CartItem.quantity sold))))))
                   (Num (Fin (InventoryItem.weight item)))]>
               (InventoryItem.stockWeight item)
        /\ InventoryItem.updatedAt (deductStock now t item) = now).
Proof.
  unfold soldLine, deductStock.
  destruct (find _ (Transaction.items t)) as [sold|] eqn:E; [right | now left].
  exists sold. repeat split. now apply find_some in E.
Qed.

(** The new stock is a rational as soon as the read of the old one stays
    on own entries. *)
Lemma newStock_plain (item : InventoryItem.t) (br : string) (quantity : Q) :
  inherited br = false \/ is_Some (InventoryItem.stock item !! br) ->
  exists s,
    Math_max (Fin 0) (js_sub (stockAt item br) (Num (Fin quantity))) = Fin s
    /\ s == Qmax 0 (onHand item br - quantity)
    /\ 0 <= s.
Proof.
  intros Hbr. destruct (stockAt_plain item br Hbr) as (q & Hq & Eq).
  rewrite Hq. cbn [js_sub toNumber Math_max].
  exists (Qmax 0 (q - quantity)). split; [reflexivity|]. split.
  - now rewrite Eq.
  - apply Q.le_max_l.
Qed.

Lemma deductStock_matched (now : Z) (t : Transaction.t) (item : InventoryItem.t)
    (sold : CartItem.t) :
  soldLine t item = Some sold ->
  inherited (Transaction.branch t) = false
  \/ is_Some (InventoryItem.stock item !! Transaction.branch t) ->
  let item' := deductStock now t item in
  let br := Transaction.branch t in
  exists s w,
    InventoryItem.stock item' !! br = Some (Fin s)
    /\ s == Qmax 0 (onHand item br - CartItem.quantity sold)
    /\ 0 <= s
    /\ InventoryItem.stockWeight item' !! br = Some (Fin w)
    /\ w == s * InventoryItem.weight item
    /\ (forall b, b <> br ->
          InventoryItem.stock item' !! b = InventoryItem.stock item !! b
          /\ InventoryItem.stockWeight item' !! b
             = InventoryItem.stockWeight item !! b).
Proof.
  intros Hsold Hbr. cbv zeta.
  destruct (deductStock_cases now t item)
    as [[Hnone _] | (sold' & Hsold' & _ & Hs & Hw & _)]; [congruence|].
  assert (sold' = sold) by congruence. subst sold'.
  destruct (newStock_plain item (Transaction.branch t) (CartItem.quantity sold) Hbr)
    as (s & Hnew & Es & Hpos).
  rewrite Hs, Hw, Hnew. cbn [js_mul toNumber].
  exists s, (s * InventoryItem.weight item).
  rewrite !lookup_insert_eq.
  split; [reflexivity|]. split; [exact Es|]. split; [exact Hpos|].
  split; [reflexivity|]. split; [reflexivity|].
  intros b Hb. now rewrite !lookup_insert_ne by congruence.
Qed.

Lemma deductStock_keeps_identity (now : Z) (t : Transaction.t)
    (item : InventoryItem.t) :
  InventoryItem.id (deductStock now t item) = InventoryItem.id item
  /\ InventoryItem.weight (deductStock now t item) = InventoryItem.weight item
  /\ InventoryItem.costPrice (deductStock now t item)
     = InventoryItem.costPrice item.
Proof. unfold deductStock. now destruct (find _ _). Qed.

Lemma find_first_of_distinct (lines : list CartItem.t) (line : CartItem.t)
    (id : string) :
  List.NoDup (List.map CartItem.id lines) ->
  In line lines -> CartItem.id line = id ->
  find (fun cartItem => String.eqb (CartItem.id cartItem) id) lines = Some line.
Proof.
  induction lines as [|l lines IH]; intros Hnd Hin Hid; [destruct Hin|].
  simpl in Hnd. apply NoDup_cons_iff in Hnd. destruct Hnd as [Hfresh Hnd].
  simpl. destruct Hin as [-> | Hin].
  - now rewrite <- Hid, String.eqb_refl.
  - destruct (String.eqb (CartItem.id l) id) eqn:E; [|now apply IH].
    apply String.eqb_eq in E. exfalso. apply Hfresh.
    rewrite E, <- Hid. now apply in_map.
Qed.

(** C1.  When the line items' ids are pairwise distinct and the branch
    does not bear the name of a member of [Object.prototype], the claim
    holds: every inventory record keeps its place, and for every line item
    that matches it the record's stock at the transaction's branch becomes
    max(0, previous - quantity), never negative, its stock weight there
    the new stock times the unit weight, the other branches being left
    alone.  With two line items of the same id the claim fails: 10 on hand
    and lines of 1 and 2 units leave 9, where deducting every line leaves
    7, although the cost of goods sold of the same transaction counts both
    lines. *)
Theorem handleNewTransaction_deducts_stock :
  (forall (now : Z) (toLocaleDateString : Z -> string)
          (t : Transaction.t) (st : App.state) (i : nat)
          (item : InventoryItem.t),
     nth_error (App.inventory st) i = Some item ->
     inherited (Transaction.branch t) = false ->
     List.NoDup (List.map CartItem.id (Transaction.items t)) ->
     exists item',
       nth_error
         (App.inventory (handleNewTransaction now toLocaleDateString t st)) i
         = Some item'
       /\ InventoryItem.id item' = InventoryItem.id item
       /\ InventoryItem.weight item' = InventoryItem.weight item
       /\ forall line,
            In line (Transaction.items t) ->
            CartItem.id line = InventoryItem.id item ->
            exists s w,
              InventoryItem.stock item' !! Transaction.branch t = Some (Fin s)
              /\ s == Qmax 0 (onHand item (Transaction.branch t)
                              - CartItem.quantity line)
              /\ 0 <= s
              /\ InventoryItem.stockWeight item' !! Transaction.branch t
                 = Some (Fin w)
              /\ w == s * InventoryItem.weight item'
              /\ (forall b, b <> Transaction.branch t ->
                    InventoryItem.stock item' !! b
                    = InventoryItem.stock item !! b
                    /\ InventoryItem.stockWeight item' !! b
                       = InventoryItem.stockWeight item !! b))
  /\ (let t := sampleSale None [sampleLine "feed-1" 1; sampleLine "feed-1" 2] 36 in
      let st := sampleState OwnerAdmin in
      let st' := handleNewTransaction 0 (fun _ => "hoy") t st in
      List.map (fun item' => InventoryItem.stock item' !! "Main")
        (App.inventory st') = [Some (Fin 9)]
      /\ Qmax 0 (Qmax 0 (onHand (sampleItem "feed-1" 10 5) "Main" - 1) - 2) == 7
      /\ ~ (9 == 7)
      /\ Metrics.totalCOGS
           (salesMetrics (App.allTransactions st') (App.inventory st') ["Main"] true)
         == 7 * (1 + 2)).
Proof.
  split.
  - intros now toLocaleDateString t st i item Hitem Hbr Hnd.
    exists (deductStock now t item).
    destruct (deductStock_keeps_identity now t item) as (Hid & Hw & _).
    split.
    { unfold handleNewTransaction. cbn [App.inventory].
      now rewrite nth_error_map, Hitem. }
    split; [exact Hid|]. split; [exact Hw|].
    intros line Hin Hline.
    pose proof (find_first_of_distinct _ _ _ Hnd Hin Hline) as Hfind.
    rewrite Hw.
    apply (deductStock_matched now t item line Hfind (or_introl Hbr)).
  - cbv zeta. split; [reflexivity|]. split; [reflexivity|].
    split; [intros H; discriminate H | reflexivity].
Qed.

Lemma handleNewTransaction_deducts_stock_witness :
  let t := sampleSale None [sampleLine "feed-1" 3] 36 in
  let st := sampleState OwnerAdmin in
  (nth_error (App.inventory st) 0 = Some (sampleItem "feed-1" 10 5)
   /\ inherited (Transaction.branch t) = false
   /\ List.NoDup (List.map CartItem.id (Transaction.items t)))
  /\ exists item' s w,
       nth_error (App.inventory (handleNewTransaction 0 (fun _ => "hoy") t st)) 0
         = Some item'
       /\ InventoryItem.stock item' !! "Main" = Some (Fin s) /\ s == 7
       /\ InventoryItem.stockWeight item' !! "Main" = Some (Fin w) /\ w == 14.
Proof.
  cbv zeta.
  assert (Hnd : List.NoDup
                  (List.map CartItem.id
                     (Transaction.items
                        (sampleSale None [sampleLine "feed-1" 3] 36)))).
  { repeat constructor. intros []. }
  split; [split; [reflexivity | split; [reflexivity | exact Hnd]]|].
  destruct handleNewTransaction_deducts_stock as [H _].
  destruct (H 0%Z (fun _ => "hoy") (sampleSale None [sampleLine "feed-1" 3] 36)
              (sampleState OwnerAdmin) 0%nat (sampleItem "feed-1" 10 5)
              eq_refl eq_refl Hnd)
    as (item' & Hnth & _ & Hw & Hline).
  destruct (Hline (sampleLine "feed-1" 3) (or_introl eq_refl) eq_refl)
    as (s & w & Hs & Es & _ & Hsw & Ew & _).
  exists item', s, w. split; [exact Hnth|]. split; [exact Hs|].
  split; [rewrite Es; reflexivity|]. split; [exact Hsw|].
  rewrite Ew, Es, Hw. reflexivity.
Defined.

(** Selling 15 units where 10 are on hand leaves 0 on hand and a stock
    weight of 0. *)
Example oversell_clamps_to_zero :
  List.map (fun item' =>
              (InventoryItem.stock item' !! "Main",
               InventoryItem.stockWeight item' !! "Main"))
    (App.inventory
       (handleNewTransaction 0 (fun _ => "hoy")
          (sampleSale None [sampleLine "feed-1" 15] 180)
          (sampleState OwnerAdmin)))
  = [(Some (Fin 0), Some (Fin 0))].
Proof. reflexivity. Qed.

(** A sale at a branch that bears the name of a member of
    [Object.prototype], for a record without an entry there, stores [NaN]
    as stock and as stock weight. *)
Example inherited_branch_name_stores_NaN :
  List.map (fun item' =>
              (InventoryItem.stock item' !! "constructor",
               InventoryItem.stockWeight item' !! "constructor"))
    (App.inventory
       (handleNewTransaction 0 (fun _ => "hoy")
          (Transaction.mk "T-2" "constructor" "Cliente" None
             [sampleLine "feed-1" 3] 36 0 36 0 "Sarah" "cash" None)
          (sampleState OwnerAdmin)))
  = [(Some NaN, Some NaN)].
Proof. reflexivity. Qed.

(** ** Transaction commit: customers *)

Lemma truthy_string_Some (s : string) :
  truthy_string (Some s) = true <-> s <> EmptyString.
Proof. destruct s; simpl; split; congruence. Qed.

Lemma recordPurchase_matched (now : Z) (toLocaleDateString : Z -> string)
    (t : Transaction.t) (c : Customer.t) :
  Transaction.customerId t = Some (Customer.id c) ->
  let c' := recordPurchase now toLocaleDateString t c in
  Customer.totalOrders c' = Customer.totalOrders c + 1
  /\ Customer.totalSpent c' = Customer.totalSpent c + Transaction.total t
  /\ Customer.loyaltyPoints c'
     = Customer.loyaltyPoints c + inject_Z (Qfloor (Transaction.total t / 100))
  /\ Customer.lastPurchase c' = toLocaleDateString now
  /\ Customer.lastContact c' = toLocaleDateString now
  /\ Customer.id c' = Customer.id c
  /\ Customer.name c' = Customer.name c.
Proof.
  intros Hcid. cbv zeta. unfold recordPurchase. rewrite Hcid. simpl.
  rewrite String.eqb_refl. simpl. repeat split.
Qed.

Lemma recordPurchase_other (now : Z) (toLocaleDateString : Z -> string)
    (t : Transaction.t) (c : Customer.t) :
  Transaction.customerId t <> Some (Customer.id c) ->
  recordPurchase now toLocaleDateString t c = c.
Proof.
  intros Hcid. unfold recordPurchase.
  destruct (Transaction.customerId t) as [cid|]; simpl; [|reflexivity].
  destruct (String.eqb (Customer.id c) cid) eqn:E; [|reflexivity].
  apply String.eqb_eq in E. congruence.
Qed.

(** C8, as the source has it: when the transaction carries a non-empty
    customer id, every customer with that id gets one more order, the
    transaction's total added to the amount spent, floor(total / 100)
    loyalty points more and both dates set to the commit date; every other
    customer is unchanged.  With 500 spent and a total of 250 the customer
    ends at 750 and gains 2 points. *)
Theorem handleNewTransaction_updates_customer :
  (forall (now : Z) (toLocaleDateString : Z -> string) (t : Transaction.t)
          (st : App.state) (cid : string) (i : nat) (c : Customer.t),
     Transaction.customerId t = Some cid ->
     cid <> EmptyString ->
     nth_error (App.customers st) i = Some c ->
     exists c',
       nth_error
         (App.customers (handleNewTransaction now toLocaleDateString t st)) i
         = Some c'
       /\ (Customer.id c = cid ->
           Customer.totalOrders c' = Customer.totalOrders c + 1
           /\ Customer.totalSpent c' = Customer.totalSpent c + Transaction.total t
           /\ Customer.loyaltyPoints c'
              = Customer.loyaltyPoints c
                + inject_Z (Qfloor (Transaction.total t / 100))
           /\ Customer.lastPurchase c' = toLocaleDateString now
           /\ Customer.lastContact c' = toLocaleDateString now
           /\ Customer.id c' = Customer.id c
           /\ Customer.name c' = Customer.name c)
       /\ (Customer.id c <> cid -> c' = c))
  /\ App.customers
       (handleNewTransaction 0 (fun _ => "hoy")
          (sampleSale (Some "c-1") [] 250)
          (App.mk SalesRepresentative "pos" false [] []
             [sampleCustomer "c-1"; sampleCustomer "c-2"]))
     = [Customer.mk "c-1" "Cliente" "hoy" 4 750 7 "hoy"; sampleCustomer "c-2"].
Proof.
  split; [|reflexivity].
  intros now toLocaleDateString t st cid i c Hcid Hne Hc.
  exists (recordPurchase now toLocaleDateString t c). split.
  { unfold handleNewTransaction. cbn [App.customers]. rewrite Hcid.
    apply truthy_string_Some in Hne. rewrite Hne.
    now rewrite nth_error_map, Hc. }
  split.
  - intros <-. now apply recordPurchase_matched.
  - intros Hother. apply recordPurchase_other. congruence.
Qed.

Lemma handleNewTransaction_updates_customer_witness :
  let t := sampleSale (Some "c-1") [] 250 in
  let st := sampleState SalesRepresentative in
  (Transaction.customerId t = Some "c-1"
   /\ "c-1" <> EmptyString
   /\ nth_error (App.customers st) 0 = Some (sampleCustomer "c-1"))
  /\ exists c',
       nth_error (App.customers (handleNewTransaction 0 (fun _ => "hoy") t st)) 0
         = Some c'
       /\ Customer.totalSpent c' = 750
       /\ Customer.loyaltyPoints c' = 7.
Proof.
  cbv zeta. split; [repeat split; discriminate|].
  destruct handleNewTransaction_updates_customer as [H _].
  destruct (H 0%Z (fun _ => "hoy") (sampleSale (Some "c-1") [] 250)
              (sampleState SalesRepresentative) "c-1" 0%nat (sampleCustomer "c-1")
              eq_refl ltac:(discriminate) eq_refl)
    as (c' & Hnth & Hupd & _).
  exists c'. split; [exact Hnth|].
  destruct (Hupd eq_refl) as (_ & Hspent & Hpoints & _).
  split; [exact Hspent | exact Hpoints].
Defined.

(** C8 as stated fails for the empty customer id: a transaction whose
    customer id is the empty string leaves the customer with that id
    untouched, its order count still 3. *)
Lemma empty_customer_id_counterexample :
  let t := sampleSale (Some EmptyString) [] 250 in
  let st := App.mk SalesRepresentative "pos" false [] []
              [sampleCustomer EmptyString] in
  Transaction.customerId t = Some (Customer.id (sampleCustomer EmptyString))
  /\ App.customers (handleNewTransaction 0 (fun _ => "hoy") t st)
     = [sampleCustomer EmptyString]
  /\ ~ (Customer.totalOrders (sampleCustomer EmptyString)
        == Customer.totalOrders (sampleCustomer EmptyString) + 1).
Proof.
  cbv zeta. split; [reflexivity|]. split; [reflexivity|].
  intros H. vm_compute in H. discriminate H.
Qed.

(** ** Transaction commit: missing references *)

Lemma find_skips_other_id (pre post : list CartItem.t) (line : CartItem.t)
    (id : string) :
  CartItem.id line <> id ->
  find (fun cartItem => String.eqb (CartItem.id cartItem) id)
       (pre ++ line :: post)%list
  = find (fun cartItem => String.eqb (CartItem.id cartItem) id)
         (pre ++ post)%list.
Proof.
  intros Hne. induction pre as [|l pre IH]; simpl.
  - apply String.eqb_neq in Hne. now rewrite Hne.
  - now rewrite IH.
Qed.

Lemma soldLine_none (t : Transaction.t) (item : InventoryItem.t) :
  (forall line, In line (Transaction.items t) ->
     CartItem.id line <> InventoryItem.id item) ->
  soldLine t item = None.
Proof.
  unfold soldLine. induction (Transaction.items t) as [|l lines IH];
    intros Hno; simpl; [reflexivity|].
  destruct (String.eqb (CartItem.id l) (InventoryItem.id item)) eqn:E.
  - apply String.eqb_eq in E. exfalso. apply (Hno l); [now left | exact E].
  - apply IH. intros line Hin. apply Hno. now right.
Qed.

Lemma deductStock_without_line (now : Z) (t : Transaction.t)
    (pre post : list CartItem.t) (line : CartItem.t) (item : InventoryItem.t) :
  Transaction.items t = (pre ++ line :: post)%list ->
  CartItem.id line <> InventoryItem.id item ->
  deductStock now t item = deductStock now (withItems t (pre ++ post)) item.
Proof.
  intros Hitems Hne. unfold deductStock.
  cbn [withItems Transaction.items Transaction.branch].
  now rewrite Hitems, (find_skips_other_id pre post line _ Hne).
Qed.

(** C9: the commit is a total function of the state, so nothing is raised;
    it always puts the transaction in front of the log; a line item whose
    id no inventory record carries leaves the inventory as the commit
    without that line would, and if no line matches the inventory is
    unchanged; a transaction without customer id, or with one that no
    customer carries, leaves the customers unchanged; records and
    customers that do match are still updated: the record gets an entry
    at the transaction's branch and the time of the commit. *)
Theorem handleNewTransaction_skips_missing
    (now : Z) (toLocaleDateString : Z -> string)
    (t : Transaction.t) (st : App.state) :
  let st' := handleNewTransaction now toLocaleDateString t st in
  App.allTransactions st' = t :: App.allTransactions st
  /\ (forall pre line post,
        Transaction.items t = (pre ++ line :: post)%list ->
        (forall item, In item (App.inventory st) ->
           InventoryItem.id item <> CartItem.id line) ->
        App.inventory st'
        = App.inventory
            (handleNewTransaction now toLocaleDateString
               (withItems t (pre ++ post)) st))
  /\ ((forall line item,
         In line (Transaction.items t) -> In item (App.inventory st) ->
         InventoryItem.id item <> CartItem.id line) ->
      App.inventory st' = App.inventory st)
  /\ ((forall cid, Transaction.customerId t = Some cid ->
         forall c, In c (App.customers st) -> Customer.id c <> cid) ->
      App.customers st' = App.customers st)
  /\ (forall i item sold,
        nth_error (App.inventory st) i = Some item ->
        soldLine t item = Some sold ->
        exists item',
          nth_error (App.inventory st') i = Some item'
          /\ InventoryItem.id item' = InventoryItem.id item
          /\ InventoryItem.updatedAt item' = now
          /\ is_Some (InventoryItem.stock item' !! Transaction.branch t)
          /\ is_Some (InventoryItem.stockWeight item' !! Transaction.branch t))
  /\ (forall i c,
        nth_error (App.customers st) i = Some c ->
        Transaction.customerId t = Some (Customer.id c) ->
        Customer.id c <> EmptyString ->
        exists c',
          nth_error (App.customers st') i = Some c'
          /\ Customer.totalOrders c' = Customer.totalOrders c + 1).
Proof.
  cbv zeta. unfold handleNewTransaction.
  cbn [App.allTransactions App.inventory App.customers].
  split; [reflexivity|]. split; [|split; [|split; [|split]]].
  - intros pre line post Hitems Hno. apply map_ext_in. intros item Hin.
    apply (deductStock_without_line now t pre post line item Hitems).
    intros E. now apply (Hno item Hin).
  - intros Hno. rewrite <- (map_id (App.inventory st)) at 2.
    apply map_ext_in. intros item Hin. apply deductStock_unmatched.
    apply soldLine_none. intros line Hline E. now apply (Hno line item).
  - intros Hno. destruct (truthy_string (Transaction.customerId t)); [|reflexivity].
    rewrite <- (map_id (App.customers st)) at 2.
    apply map_ext_in. intros c Hin. apply recordPurchase_other.
    intros Hcid. now apply (Hno _ Hcid c Hin).
  - intros i item sold Hitem Hsold. exists (deductStock now t item).
    split; [now rewrite nth_error_map, Hitem|].
    split; [now destruct (deductStock_keeps_identity now t item) as (-> & _)|].
    destruct (deductStock_cases now t item)
      as [[Hnone _] | (sold' & _ & _ & Hs & Hw & Hup)]; [congruence|].
    split; [exact Hup|]. rewrite Hs, Hw, !lookup_insert_eq. split; eauto.
  - intros i c Hc Hcid Hne.
    exists (recordPurchase now toLocaleDateString t c). split.
    + rewrite Hcid. apply truthy_string_Some in Hne. rewrite Hne.
      now rewrite nth_error_map, Hc.
    + now destruct (recordPurchase_matched now toLocaleDateString t c Hcid)
        as [Ho _].
Qed.

Lemma handleNewTransaction_skips_missing_witness :
  let t := sampleSale (Some "nobody")
             [sampleLine "ghost" 4; sampleLine "feed-1" 3] 84 in
  let st := sampleState OwnerAdmin in
  (Transaction.items t = ([] ++ sampleLine "ghost" 4 :: [sampleLine "feed-1" 3])%list
   /\ forall item, In item (App.inventory st) ->
        InventoryItem.id item <> CartItem.id (sampleLine "ghost" 4))
  /\ App.inventory (handleNewTransaction 0 (fun _ => "hoy") t st)
     = App.inventory
         (handleNewTransaction 0 (fun _ => "hoy")
            (withItems t [sampleLine "feed-1" 3]) st).
Proof.
  cbv zeta.
  assert (Hno : forall item, In item (App.inventory (sampleState OwnerAdmin)) ->
                  InventoryItem.id item <> CartItem.id (sampleLine "ghost" 4)).
  { intros item [<- | []]. discriminate. }
  split; [split; [reflexivity | exact Hno]|].
  destruct (handleNewTransaction_skips_missing 0 (fun _ => "hoy")
              (sampleSale (Some "nobody")
                 [sampleLine "ghost" 4; sampleLine "feed-1" 3] 84)
              (sampleState OwnerAdmin)) as (_ & Hskip & _).
  apply (Hskip [] (sampleLine "ghost" 4) [sampleLine "feed-1" 3] eq_refl Hno).
Defined.

(** * Further properties *)

(** ** More on sums *)

Lemma Qsum_map_plus {A : Type} (f g : A -> Q) (xs : list A) :
  Qsum (List.map (fun x => f x + g x) xs)
  == Qsum (List.map f xs) + Qsum (List.map g xs).
Proof.
  induction xs as [|x xs IH]; simpl; [ring|]. rewrite IH. ring.
Qed.

Lemma Qsum_map_scale {A : Type} (f : A -> Q) (c : Q) (xs : list A) :
  Qsum (List.map (fun x => f x * c) xs) == Qsum (List.map f xs) * c.
Proof.
  induction xs as [|x xs IH]; simpl; [ring|]. rewrite IH. ring.
Qed.

Lemma Qsum_map_le {A : Type} (f g : A -> Q) (xs : list A) :
  (forall x, In x xs -> f x <= g x) ->
  Qsum (List.map f xs) <= Qsum (List.map g xs).
Proof.
  induction xs as [|x xs IH]; intros Hle; simpl; [apply Qle_refl|].
  apply Qplus_le_compat.
  - apply Hle. now left.
  - apply IH. intros y Hy. apply Hle. now right.
Qed.

Lemma Qsum_nonneg (xs : list Q) :
  (forall x, In x xs -> 0 <= x) -> 0 <= Qsum xs.
Proof.
  induction xs as [|x xs IH]; intros Hpos; simpl; [apply Qle_refl|].
  replace 0 with (0 + 0) by reflexivity. apply Qplus_le_compat.
  - apply Hpos. now left.
  - apply IH. intros y Hy. apply Hpos. now right.
Qed.

Lemma Qsum_filter_le {A : Type} (f : A -> Q) (p : A -> bool) (xs : list A) :
  (forall x, In x xs -> 0 <= f x) ->
  Qsum (List.map f (List.filter p xs)) <= Qsum (List.map f xs).
Proof.
  induction xs as [|x xs IH]; intros Hpos; simpl; [apply Qle_refl|].
  assert (Hrest : Qsum (List.map f (List.filter p xs)) <= Qsum (List.map f xs)).
  { apply IH. intros y Hy. apply Hpos. now right. }
  destruct (p x); simpl.
  - apply Qplus_le_compat; [apply Qle_refl | exact Hrest].
  - rewrite <- (Qplus_0_l (Qsum (List.map f (List.filter p xs)))).
    apply Qplus_le_compat; [apply Hpos; now left | exact Hrest].
Qed.

(** ** Branches *)

Lemma find_hd_filter {A : Type} (p : A -> bool) (xs : list A) :
  find p xs = hd_error (List.filter p xs).
Proof.
  induction xs as [|x xs IH]; simpl; [reflexivity|]. now destruct (p x).
Qed.

Lemma branchNames_In (branches : list Branch.t) (name : string) :
  In name (branchNames branches)
  <-> exists b, In b branches /\ Branch.active b = true /\ Branch.name b = name.
Proof.
  unfold branchNames, activeBranches. rewrite in_map_iff. split.
  - intros (b & Hname & Hb). apply filter_In in Hb. exists b. tauto.
  - intros (b & Hb & Hact & Hname). exists b. split; [exact Hname|].
    apply filter_In. tauto.
Qed.

(** After a branch update the stored list is the new one; the current
    branch is kept when it is still the name of an active branch, and
    otherwise becomes the name of the first active branch; only when no
    branch is active does it stay on a name that is not selectable. *)
Theorem handleBranchUpdate_current_branch
    (currentBranch : string) (updatedBranches : list Branch.t) :
  let r := handleBranchUpdate currentBranch updatedBranches in
  fst r = updatedBranches
  /\ (In currentBranch (branchNames updatedBranches) -> snd r = currentBranch)
  /\ (~ In currentBranch (branchNames updatedBranches) ->
      snd r = hd currentBranch (branchNames updatedBranches))
  /\ (branchNames updatedBranches <> [] ->
      In (snd r) (branchNames updatedBranches))
  /\ (branchNames updatedBranches = [] -> snd r = currentBranch).
Proof.
  cbv zeta. unfold handleBranchUpdate.
  destruct (find (fun b => String.eqb (Branch.name b) currentBranch
                           && Branch.active b) updatedBranches)
    as [b|] eqn:Ecur.
  - apply find_some in Ecur. destruct Ecur as [Hb Hcur].
    apply andb_true_iff in Hcur. destruct Hcur as [Hname Hact].
    apply String.eqb_eq in Hname.
    assert (Hin : In currentBranch (branchNames updatedBranches)).
    { apply branchNames_In. exists b. tauto. }
    simpl. repeat split; tauto.
  - assert (Hnot : ~ In currentBranch (branchNames updatedBranches)).
    { intros Hin. apply branchNames_In in Hin.
      destruct Hin as (b & Hb & Hact & Hname).
      pose proof (find_none _ _ Ecur b Hb) as Hf. simpl in Hf.
      rewrite Hname, String.eqb_refl, Hact in Hf. discriminate Hf. }
    rewrite find_hd_filter. unfold branchNames, activeBranches in *.
    destruct (List.filter Branch.active updatedBranches) as [|first rest];
      simpl; repeat split; try tauto; try congruence.
    intros H. exfalso. apply Hnot. exact H.
Qed.

Lemma handleBranchUpdate_current_branch_witness :
  let updated := [sampleBranch "Norte" false; sampleBranch "Sur" true;
                  sampleBranch "Este" true] in
  (~ In "Norte" (branchNames updated) /\ branchNames updated <> [])
  /\ snd (handleBranchUpdate "Norte" updated) = "Sur".
Proof.
  cbv zeta.
  assert (Hnot : ~ In "Norte"
                   (branchNames [sampleBranch "Norte" false; sampleBranch "Sur" true;
                                 sampleBranch "Este" true])).
  { simpl. intros [H|[H|[]]]; discriminate H. }
  split; [split; [exact Hnot | discriminate]|].
  destruct (handleBranchUpdate_current_branch "Norte"
              [sampleBranch "Norte" false; sampleBranch "Sur" true;
               sampleBranch "Este" true]) as (_ & _ & H & _).
  apply (H Hnot).
Defined.

(** ** Per-branch rollup *)

Lemma fold_insert_lookup {V : Type} (g : string -> V) (names : list string)
    (m0 : gmap string V) (name : string) :
  fold_left (fun m k => <[k := g k]> m) names m0 !! name
  = if includes names name then Some (g name) else m0 !! name.
Proof.
  revert m0. induction names as [|k names IH]; intros m0; [reflexivity|].
  cbn [fold_left]. rewrite IH. unfold includes. cbn [existsb].
  fold (includes names name).
  destruct (includes names name); [now rewrite orb_true_r|].
  rewrite orb_false_r. destruct (String.eqb name k) eqn:E.
  - apply String.eqb_eq in E. subst k. apply lookup_insert_eq.
  - apply String.eqb_neq in E. apply lookup_insert_ne. congruence.
Qed.

Lemma branchAnalytics_lookup (today : Z) (T : list Transaction.t)
    (bn : list string) (inv : list InventoryItem.t) (b : string) :
  In b bn ->
  exists s,
    branchAnalytics today T bn inv !! b = Some s
    /\ BranchStats.totalRevenue s
       == Qsum (List.map Transaction.total
                  (List.filter (fun t => String.eqb (Transaction.branch t) b) T))
    /\ BranchStats.totalOrders s
       = length (List.filter (fun t => String.eqb (Transaction.branch t) b) T)
    /\ BranchStats.todayRevenue s
       == Qsum (List.map Transaction.total
                  (List.filter (fun t => (today <=? Transaction.timestamp t)%Z)
                     (List.filter (fun t => String.eqb (Transaction.branch t) b) T)))
    /\ BranchStats.todayOrders s
       = length (List.filter (fun t => (today <=? Transaction.timestamp t)%Z)
                   (List.filter (fun t => String.eqb (Transaction.branch t) b) T))
    /\ BranchStats.inventoryWeight s
       = fold_left (fun sum item =>
             add_number sum
               (js_mul (stockAt item b) (Num (Fin (InventoryItem.weight item)))))
           inv (Fin 0).
Proof.
  intros Hb. apply includes_In in Hb.
  unfold branchAnalytics. cbv zeta. rewrite fold_insert_lookup, Hb.
  eexists. split; [reflexivity|].
  cbn [BranchStats.totalRevenue BranchStats.totalOrders BranchStats.todayRevenue
       BranchStats.todayOrders BranchStats.inventoryWeight].
  split; [apply (fold_left_Qplus Transaction.total)|].
  split; [reflexivity|].
  split; [apply (fold_left_Qplus Transaction.total)|].
  split; [reflexivity|].
  reflexivity.
Qed.

(** The weight held at a branch whose name is not that of a member of
    [Object.prototype] is a rational, the sum over the records of on-hand
    quantity times unit weight. *)
Lemma branchWeight_plain (inv : list InventoryItem.t) (b : string) :
  inherited b = false ->
  exists w,
    fold_left (fun sum item =>
        add_number sum
          (js_mul (stockAt item b) (Num (Fin (InventoryItem.weight item)))))
      inv (Fin 0) = Fin w
    /\ w == Qsum (List.map
                    (fun item => onHand item b * InventoryItem.weight item) inv).
Proof.
  intros Hb.
  destruct (fold_add_number
              (fun item =>
                 js_mul (stockAt item b) (Num (Fin (InventoryItem.weight item))))
              (fun item => onHand item b * InventoryItem.weight item)
              inv 0) as (w & Hw & Ew).
  - intros item _.
    destruct (stockAt_plain item b (or_introl Hb)) as (q & Hq & Eq).
    rewrite Hq. exists (q * InventoryItem.weight item).
    split; [reflexivity|]. now rewrite Eq.
  - exists w. split; [exact Hw|]. rewrite Ew. ring.
Qed.

(** The rollup has an entry exactly for the named branches; a name listed
    twice still has one entry.  The entry of a branch holds the revenue
    and the number of the transactions made at that branch, the same two
    figures over the transactions stamped at or after [today], the average
    order guarded against an empty branch, and, when the branch does not
    bear the name of a member of [Object.prototype], the weight of the
    stock held there, on-hand quantity times unit weight summed over the
    records. *)
Theorem branchAnalytics_entries (today : Z) (T : list Transaction.t)
    (bn : list string) (inv : list InventoryItem.t) (b : string) :
  let atBranch := List.filter (fun t => String.eqb (Transaction.branch t) b) T in
  let sinceToday :=
    List.filter (fun t => (today <=? Transaction.timestamp t)%Z) atBranch in
  (branchAnalytics today T bn inv !! b = None <-> ~ In b bn)
  /\ (In b bn ->
      exists s,
        branchAnalytics today T bn inv !! b = Some s
        /\ BranchStats.totalRevenue s == Qsum (List.map Transaction.total atBranch)
        /\ BranchStats.totalOrders s = length atBranch
        /\ BranchStats.todayRevenue s
           == Qsum (List.map Transaction.total sinceToday)
        /\ BranchStats.todayOrders s = length sinceToday
        /\ (atBranch = [] -> BranchStats.averageOrder s = 0)
        /\ (atBranch <> [] ->
            BranchStats.averageOrder s
            == Qsum (List.map Transaction.total atBranch)
               / Q_of_nat (length atBranch))
        /\ (inherited b = false ->
            exists w,
              BranchStats.inventoryWeight s = Fin w
              /\ w == Qsum (List.map
                             (fun item => onHand item b * InventoryItem.weight item)
                             inv))).
Proof.
  cbv zeta. split.
  - unfold branchAnalytics. cbv zeta. rewrite fold_insert_lookup.
    destruct (includes bn b) eqn:E.
    + apply includes_In in E. split; [discriminate | tauto].
    + split; [|intros _; apply lookup_empty].
      intros _ Hin. apply includes_In in Hin. congruence.
  - intros Hb. apply includes_In in Hb.
    unfold branchAnalytics. cbv zeta. rewrite fold_insert_lookup, Hb.
    eexists. split; [reflexivity|].
    cbn [BranchStats.totalRevenue BranchStats.totalOrders
         BranchStats.todayRevenue BranchStats.todayOrders
         BranchStats.averageOrder BranchStats.inventoryWeight].
    split; [apply (fold_left_Qplus Transaction.total)|].
    split; [reflexivity|].
    split; [apply (fold_left_Qplus Transaction.total)|].
    split; [reflexivity|].
    split; [now intros ->|].
    split.
    + intros Hne.
      destruct (List.filter (fun t => String.eqb (Transaction.branch t) b) T)
        as [|t rest]; [congruence|].
      change (0 <? length (t :: rest))%nat with true. cbv iota.
      now rewrite (fold_left_Qplus Transaction.total).
    + apply branchWeight_plain.
Qed.

Lemma branchAnalytics_entries_witness :
  let T := [sampleSale None [] 250; sampleSale None [] 50] in
  In "Main" ["Main"]
  /\ exists s,
       branchAnalytics 0 T ["Main"] [sampleItem "feed-1" 10 5] !! "Main" = Some s
       /\ BranchStats.totalOrders s = 2%nat.
Proof.
  cbv zeta. split; [now left|].
  destruct (branchAnalytics_entries 0
              [sampleSale None [] 250; sampleSale None [] 50] ["Main"]
              [sampleItem "feed-1" 10 5] "Main") as (_ & H).
  destruct (H (or_introl eq_refl)) as (s & Hs & _ & Ho & _).
  exists s. split; [exact Hs | exact Ho].
Defined.

Lemma Qsum_map_zero {A : Type} (xs : list A) :
  Qsum (List.map (fun _ => 0) xs) == 0.
Proof. induction xs as [|x xs IH]; simpl; [reflexivity|]. rewrite IH. ring. Qed.

Lemma indicator_sum (x : string) (v : Q) (bn : list string) :
  List.NoDup bn ->
  Qsum (List.map (fun b => if String.eqb x b then v else 0) bn)
  == if includes bn x then v else 0.
Proof.
  induction bn as [|b bn IH]; intros Hnd; [reflexivity|].
  apply NoDup_cons_iff in Hnd. destruct Hnd as [Hfresh Hnd].
  unfold includes. cbn [List.map Qsum fold_right existsb].
  fold (includes bn x). change (fold_right Qplus 0) with Qsum.
  rewrite (IH Hnd). destruct (String.eqb x b) eqn:E; simpl.
  - apply String.eqb_eq in E. subst b.
    destruct (includes bn x) eqn:Ein; [|ring].
    apply includes_In in Ein. contradiction.
  - destruct (includes bn x); ring.
Qed.

Lemma indicator_count (x : string) (bn : list string) :
  List.NoDup bn ->
  list_sum (List.map (fun b => if String.eqb x b then 1%nat else 0%nat) bn)
  = if includes bn x then 1%nat else 0%nat.
Proof.
  induction bn as [|b bn IH]; intros Hnd; [reflexivity|].
  apply NoDup_cons_iff in Hnd. destruct Hnd as [Hfresh Hnd].
  unfold includes. cbn [List.map list_sum fold_right existsb].
  fold (includes bn x). change (fold_right Nat.add 0%nat) with list_sum.
  rewrite (IH Hnd). destruct (String.eqb x b) eqn:E; simpl.
  - apply String.eqb_eq in E. subst b.
    destruct (includes bn x) eqn:Ein; [|reflexivity].
    apply includes_In in Ein. contradiction.
  - reflexivity.
Qed.

Lemma list_sum_map_plus {A : Type} (f g : A -> nat) (xs : list A) :
  list_sum (List.map (fun x => (f x + g x)%nat) xs)
  = (list_sum (List.map f xs) + list_sum (List.map g xs))%nat.
Proof. induction xs as [|x xs IH]; simpl; [reflexivity|]. rewrite IH. lia. Qed.

Lemma revenue_by_branch (T : list Transaction.t) (bn : list string) :
  List.NoDup bn ->
  Qsum (List.map (fun b =>
          Qsum (List.map Transaction.total
                  (List.filter (fun t => String.eqb (Transaction.branch t) b) T)))
          bn)
  == Qsum (List.map Transaction.total
             (List.filter (fun t => includes bn (Transaction.branch t)) T)).
Proof.
  intros Hnd. induction T as [|t T IH].
  - simpl. apply Qsum_map_zero.
  - rewrite (Qsum_map_ext _
      (fun b => (if String.eqb (Transaction.branch t) b
                 then Transaction.total t else 0)
                + Qsum (List.map Transaction.total
                          (List.filter
                             (fun t => String.eqb (Transaction.branch t) b) T)))).
    + rewrite Qsum_map_plus, IH, (indicator_sum _ _ _ Hnd).
      cbn [List.filter].
      destruct (includes bn (Transaction.branch t)); simpl; ring.
    + intros b _. cbn [List.filter].
      destruct (String.eqb (Transaction.branch t) b); simpl; ring.
Qed.

Lemma orders_by_branch (T : list Transaction.t) (bn : list string) :
  List.NoDup bn ->
  list_sum (List.map (fun b =>
              length (List.filter
                        (fun t => String.eqb (Transaction.branch t) b) T)) bn)
  = length (List.filter (fun t => includes bn (Transaction.branch t)) T).
Proof.
  intros Hnd. induction T as [|t T IH].
  - simpl. induction bn as [|b bn IHb]; simpl; [reflexivity|].
    apply IHb. now apply NoDup_cons_iff in Hnd.
  - rewrite (map_ext_in _
      (fun b => ((if String.eqb (Transaction.branch t) b then 1 else 0)
                 + length (List.filter
                             (fun t => String.eqb (Transaction.branch t) b) T))%nat)).
    + rewrite list_sum_map_plus, IH, (indicator_count _ _ Hnd).
      cbn [List.filter].
      now destruct (includes bn (Transaction.branch t)).
    + intros b _. cbn [List.filter].
      now destruct (String.eqb (Transaction.branch t) b).
Qed.

Lemma filter_all {A : Type} (p : A -> bool) (xs : list A) :
  (forall x, In x xs -> p x = true) -> List.filter p xs = xs.
Proof.
  induction xs as [|x xs IH]; intros Hall; simpl; [reflexivity|].
  rewrite (Hall x (or_introl eq_refl)), IH; [reflexivity|].
  intros y Hy. apply Hall. now right.
Qed.

(** When no branch name is listed twice, the revenues of the entries add
    up to the revenue of the transactions made at a named branch, and the
    order counts to their number; transactions of a branch that is not
    named (a deactivated one) are in no entry.  When every transaction was
    made at a named branch, the entries add up to the total revenue and
    the order count of the sales metrics. *)
Theorem branchAnalytics_partitions_sales (today : Z) (T : list Transaction.t)
    (bn : list string) (inv : list InventoryItem.t) :
  List.NoDup bn ->
  let data := branchAnalytics today T bn inv in
  let ordersOf := fun b =>
    match data !! b with
    | Some s => BranchStats.totalOrders s
    | None => 0%nat
    end in
  let named := List.filter (fun t => includes bn (Transaction.branch t)) T in
  Qsum (List.map (branchField data BranchStats.totalRevenue) bn)
    == Qsum (List.map Transaction.total named)
  /\ list_sum (List.map ordersOf bn) = length named
  /\ ((forall t, In t T -> In (Transaction.branch t) bn) ->
      forall (inv' : list InventoryItem.t) (bn' : list string) (admin : bool),
        Qsum (List.map (branchField data BranchStats.totalRevenue) bn)
          == Metrics.totalRevenue (salesMetrics T inv' bn' admin)
        /\ list_sum (List.map ordersOf bn)
           = Metrics.totalOrders (salesMetrics T inv' bn' admin)).
Proof.
  intros Hnd. cbv zeta.
  assert (Hrev : Qsum (List.map
                   (branchField (branchAnalytics today T bn inv)
                      BranchStats.totalRevenue) bn)
                 == Qsum (List.map Transaction.total
                            (List.filter
                               (fun t => includes bn (Transaction.branch t)) T))).
  { rewrite <- (revenue_by_branch T bn Hnd). apply Qsum_map_ext. intros b Hb.
    destruct (branchAnalytics_lookup today T bn inv b Hb) as (s & Hs & Hr & _).
    unfold branchField. rewrite Hs. cbn [option_map].
    now rewrite num_or_zero. }
  assert (Hord : list_sum (List.map
                   (fun b => match branchAnalytics today T bn inv !! b with
                             | Some s => BranchStats.totalOrders s
                             | None => 0%nat
                             end) bn)
                 = length (List.filter
                             (fun t => includes bn (Transaction.branch t)) T)).
  { rewrite <- (orders_by_branch T bn Hnd). f_equal. apply map_ext_in.
    intros b Hb.
    destruct (branchAnalytics_lookup today T bn inv b Hb)
      as (s & Hs & _ & Ho & _).
    now rewrite Hs. }
  split; [exact Hrev|]. split; [exact Hord|].
  intros Hall inv' bn' admin.
  assert (Hfilter : List.filter (fun t => includes bn (Transaction.branch t)) T = T).
  { apply filter_all. intros t Ht. apply includes_In. now apply Hall. }
  rewrite Hfilter in Hrev, Hord. split; [|exact Hord].
  rewrite Hrev. symmetry. apply (fold_left_Qplus Transaction.total).
Qed.

Lemma branchAnalytics_partitions_sales_witness :
  let T := [sampleSale None [] 250; sampleSale None [] 50] in
  let data := branchAnalytics 0 T ["Main"; "Norte"] [] in
  List.NoDup ["Main"; "Norte"]
  /\ Qsum (List.map (branchField data BranchStats.totalRevenue) ["Main"; "Norte"])
     == 300.
Proof.
  cbv zeta.
  assert (Hnd : List.NoDup ["Main"; "Norte"]).
  { repeat constructor; simpl; intuition discriminate. }
  split; [exact Hnd|].
  destruct (branchAnalytics_partitions_sales 0
              [sampleSale None [] 250; sampleSale None [] 50]
              ["Main"; "Norte"] [] Hnd) as (Hrev & _).
  rewrite Hrev. reflexivity.
Defined.

Lemma weight_sum_exchange (inv : list InventoryItem.t) (bn : list string) :
  Qsum (List.map (fun b =>
          Qsum (List.map
                  (fun item => onHand item b * InventoryItem.weight item) inv))
          bn)
  == Qsum (List.map (fun item =>
             unitsOnHand item bn * InventoryItem.weight item) inv).
Proof.
  induction bn as [|b bn IH].
  - simpl. rewrite (Qsum_map_ext _ (fun _ => 0)).
    + now rewrite Qsum_map_zero.
    + intros item _. unfold unitsOnHand. simpl. ring.
  - cbn [List.map Qsum fold_right]. change (fold_right Qplus 0) with Qsum.
    rewrite IH, <- Qsum_map_plus. apply Qsum_map_ext. intros item _.
    unfold unitsOnHand. simpl. ring.
Qed.

(** When no listed branch bears the name of a member of
    [Object.prototype], the inventory weights that the branch cards show,
    read branch by branch in the order of the list, add up to the total
    inventory weight of the sales metrics over the same branch list. *)
Theorem branchAnalytics_weights_add_up (today : Z)
    (T T' : list Transaction.t) (bn : list string)
    (inv : list InventoryItem.t) (admin : bool) :
  plainNames bn ->
  exists total,
    Metrics.totalInventoryWeight (salesMetrics T' inv bn admin) = Fin total
    /\ Qsum (List.map (branchWeight (branchAnalytics today T bn inv)) bn)
       == total.
Proof.
  intros Hbn.
  destruct (salesMetrics_weight_sum T' inv bn admin Hbn) as (total & Ht & Et).
  exists total. split; [exact Ht|]. rewrite Et.
  unfold totalInventoryWeight_spec. rewrite <- weight_sum_exchange.
  apply Qsum_map_ext. intros b Hb.
  destruct (branchAnalytics_lookup today T bn inv b Hb)
    as (s & Hs & _ & _ & _ & _ & Hw).
  destruct (branchWeight_plain inv b (Hbn b Hb)) as (w & Hfold & Ew).
  unfold branchWeight. rewrite Hs. cbn [option_map]. rewrite Hw, Hfold.
  destruct (Qeq_bool w 0) eqn:E.
  - apply Qeq_bool_iff in E. now rewrite <- Ew, E.
  - now rewrite Ew.
Qed.

Lemma branchAnalytics_weights_add_up_witness :
  plainNames ["Main"]
  /\ exists total,
       Metrics.totalInventoryWeight
         (salesMetrics [] [sampleItem "feed-1" 10 5] ["Main"] false) = Fin total
       /\ Qsum (List.map
                  (branchWeight
                     (branchAnalytics 0 [] ["Main"] [sampleItem "feed-1" 10 5]))
                  ["Main"])
          == total.
Proof.
  split; [exact plainNames_Main|].
  apply (branchAnalytics_weights_add_up 0 [] [] ["Main"]
           [sampleItem "feed-1" 10 5] false plainNames_Main).
Defined.

(** Today's figures of a branch never exceed its overall figures: the
    order count always, the revenue when no transaction of the branch has
    a negative total. *)
Theorem branchAnalytics_today_within_total (today : Z)
    (T : list Transaction.t) (bn : list string) (inv : list InventoryItem.t)
    (b : string) :
  In b bn ->
  exists s,
    branchAnalytics today T bn inv !! b = Some s
    /\ (BranchStats.todayOrders s <= BranchStats.totalOrders s)%nat
    /\ ((forall t, In t T -> Transaction.branch t = b ->
           0 <= Transaction.total t) ->
        BranchStats.todayRevenue s <= BranchStats.totalRevenue s).
Proof.
  intros Hb.
  destruct (branchAnalytics_lookup today T bn inv b Hb)
    as (s & Hs & Hr & Ho & Htr & Hto & _).
  exists s. split; [exact Hs|]. split.
  - rewrite Hto, Ho. apply List.filter_length_le.
  - intros Hpos. rewrite Htr, Hr. apply Qsum_filter_le.
    intros t Ht. apply filter_In in Ht. destruct Ht as [Ht Hbr].
    apply String.eqb_eq in Hbr. now apply Hpos.
Qed.

Lemma branchAnalytics_today_within_total_witness :
  In "Main" ["Main"]
  /\ exists s,
       branchAnalytics 1 [sampleSale None [] 250] ["Main"] [] !! "Main" = Some s
       /\ (BranchStats.todayOrders s <= BranchStats.totalOrders s)%nat.
Proof.
  split; [now left|].
  destruct (branchAnalytics_today_within_total 1 [sampleSale None [] 250]
              ["Main"] [] "Main" (or_introl eq_refl)) as (s & Hs & Ho & _).
  exists s. split; [exact Hs | exact Ho].
Defined.

(** ** Role switch, menus and the gate *)

Lemma incl_by_includes (xs ys : list string) :
  forallb (includes ys) xs = true -> forall m, In m xs -> In m ys.
Proof.
  intros H m Hm. rewrite forallb_forall in H. apply includes_In. now apply H.
Qed.

(** The role switch only ever installs the owner or the sales
    representative: the owner becomes the sales representative and every
    other role becomes the owner, so the accountant and viewer roles are
    never entered through it, and from the owner or the sales
    representative two switches give the role back.  It lands on the
    dashboard, which the new role may open, and leaves the data alone. *)
Theorem switchRole_toggles (st : App.state) :
  let st' := switchRole st in
  (App.currentRole st' = OwnerAdmin \/ App.currentRole st' = SalesRepresentative)
  /\ (App.currentRole st = OwnerAdmin ->
      App.currentRole st' = SalesRepresentative)
  /\ (App.currentRole st <> OwnerAdmin -> App.currentRole st' = OwnerAdmin)
  /\ (App.currentRole st = OwnerAdmin \/ App.currentRole st = SalesRepresentative ->
      App.currentRole (switchRole st') = App.currentRole st)
  /\ App.activeModule st' = "dashboard"
  /\ moduleAllowed st'
  /\ App.inventory st' = App.inventory st
  /\ App.allTransactions st' = App.allTransactions st
  /\ App.customers st' = App.customers st.
Proof.
  cbv zeta. unfold moduleAllowed, switchRole. cbn [App.currentRole App.activeModule
    App.inventory App.allTransactions App.customers].
  destruct (App.currentRole st); cbn [switchedUser CurrentUser.role];
    repeat split; auto; try congruence; try tauto;
    try (intros [H|H]; congruence);
    try (apply includes_In; reflexivity).
Qed.

Lemma switchRole_toggles_witness :
  App.currentRole initialState = OwnerAdmin
  /\ App.currentRole (switchRole initialState) = SalesRepresentative.
Proof.
  split; [reflexivity|].
  destruct (switchRole_toggles initialState) as (_ & H & _).
  apply H. reflexivity.
Defined.

(** For every role the buttons rendered by the sidebar and the mobile menu
    are exactly the role's allowed modules, each once: nothing allowed is
    missing from the menu and nothing rendered is forbidden. *)
Theorem renderedMenu_is_allowed_set (role : UserRole) :
  (forall m : string,
     In m (List.map MenuItem.id (renderedMenu role))
     <-> In m (allowedModules role))
  /\ List.NoDup (List.map MenuItem.id (renderedMenu role))
  /\ length (renderedMenu role) = length (allowedModules role).
Proof.
  split; [|split].
  - intros m. split; apply incl_by_includes; now destruct role.
  - destruct role; vm_compute;
      repeat (constructor; [simpl; intuition discriminate|]); constructor.
  - now destruct role.
Qed.

Lemma renderedMenu_allowed (role : UserRole) (item : MenuItem.t) :
  In item (renderedMenu role) -> In (MenuItem.id item) (allowedModules role).
Proof.
  unfold renderedMenu. intros H. apply filter_In in H. destruct H as [_ H].
  now apply includes_In.
Qed.

(** A click on any rendered menu entry opens that entry's module, which
    the role may open.  From the mobile menu the request handler is
    therefore always on its granting branch: it shows no denial, and it
    differs from the sidebar click only in closing the menu. *)
Theorem menu_clicks_stay_allowed (st : App.state) (item : MenuItem.t) :
  In item (renderedMenu (App.currentRole st)) ->
  snd (mobileMenuClick item st) = None
  /\ App.activeModule (fst (mobileMenuClick item st)) = MenuItem.id item
  /\ App.isMobileMenuOpen (fst (mobileMenuClick item st)) = false
  /\ moduleAllowed (fst (mobileMenuClick item st))
  /\ App.activeModule (sidebarClick item st) = MenuItem.id item
  /\ App.isMobileMenuOpen (sidebarClick item st) = App.isMobileMenuOpen st
  /\ moduleAllowed (sidebarClick item st)
  /\ renderContent (fst (mobileMenuClick item st))
     = renderContent (sidebarClick item st).
Proof.
  intros Hitem. apply renderedMenu_allowed in Hitem.
  pose proof Hitem as Hinc. apply includes_In in Hinc.
  unfold mobileMenuClick, handleModuleChange, sidebarClick, setActiveModule,
    moduleAllowed.
  rewrite Hinc. cbn [fst snd App.activeModule App.currentRole App.isMobileMenuOpen].
  repeat split; assumption.
Qed.

Lemma menu_clicks_stay_allowed_witness :
  In (MenuItem.mk "pos" "Punto de Venta") (renderedMenu SalesRepresentative)
  /\ snd (mobileMenuClick (MenuItem.mk "pos" "Punto de Venta")
            (sampleState SalesRepresentative)) = None.
Proof.
  assert (Hin : In (MenuItem.mk "pos" "Punto de Venta")
                   (renderedMenu SalesRepresentative)).
  { vm_compute. right. left. reflexivity. }
  split; [exact Hin|].
  destruct (menu_clicks_stay_allowed (sampleState SalesRepresentative)
              (MenuItem.mk "pos" "Punto de Venta") Hin) as (H & _).
  exact H.
Defined.

(** The start state has an allowed active module, and the request
    handler, the role switch and the commit handler keep it so: after a
    request the active module is allowed whether the request was granted
    or refused. *)
Theorem moduleAllowed_kept (st : App.state) :
  moduleAllowed initialState
  /\ moduleAllowed (switchRole st)
  /\ (moduleAllowed st ->
      (forall m : string, moduleAllowed (fst (handleModuleChange m st)))
      /\ (forall (now : Z) (toLocaleDateString : Z -> string) (t : Transaction.t),
            moduleAllowed (handleNewTransaction now toLocaleDateString t st))).
Proof.
  split; [apply includes_In; reflexivity|]. split.
  - unfold moduleAllowed, switchRole. cbn [App.currentRole App.activeModule].
    apply includes_In. now destruct (App.currentRole st).
  - intros Hst. split.
    + intros m. unfold handleModuleChange.
      destruct (includes (allowedModules (App.currentRole st)) m) eqn:E;
        [|exact Hst].
      unfold moduleAllowed. cbn [fst App.currentRole App.activeModule].
      now apply includes_In.
    + intros now toLocaleDateString t. exact Hst.
Qed.

Lemma moduleAllowed_kept_witness :
  moduleAllowed (sampleState ViewerOnly)
  /\ moduleAllowed (fst (handleModuleChange "finance" (sampleState ViewerOnly))).
Proof.
  assert (H0 : moduleAllowed (sampleState ViewerOnly)).
  { apply includes_In. reflexivity. }
  split; [exact H0|].
  destruct (moduleAllowed_kept (sampleState ViewerOnly)) as (_ & _ & H).
  destruct (H H0) as [Hreq _]. apply Hreq.
Defined.

(** ** The dispatcher and the dashboard shortcuts *)

Ltac split_switch :=
  repeat match goal with
         | |- context [String.eqb ?a ?b] =>
             let E := fresh "E" in
             destruct (String.eqb a b) eqn:E;
             [apply String.eqb_eq in E | apply String.eqb_neq in E]
         end.

Lemma renderDashboard_is_dashboard (st : App.state) :
  renderDashboard st = EmptyStateDashboard
  \/ renderDashboard st = PopulatedDashboard.
Proof. unfold renderDashboard. destruct (_ && _)%bool; auto. Qed.

(** Whatever put the active module in place, the finance module is
    mounted only for a role that may view financials, and such a role has
    finance among its allowed modules; with the finance id active and a
    role that may not view financials the denial card is mounted
    instead. *)
Theorem renderContent_guards_finance (st : App.state) :
  (renderContent st = FinanceModule
   <-> App.activeModule st = "finance"
       /\ canViewFinancials (App.currentRole st) = true)
  /\ (renderContent st = FinanceAccessDenied
      <-> App.activeModule st = "finance"
          /\ canViewFinancials (App.currentRole st) = false)
  /\ (renderContent st = FinanceModule ->
      In "finance" (allowedModules (App.currentRole st))).
Proof.
  assert (Hfin : renderContent st = FinanceModule
                 <-> App.activeModule st = "finance"
                     /\ canViewFinancials (App.currentRole st) = true).
  { unfold renderContent. cbv zeta.
    destruct (renderDashboard_is_dashboard st) as [Hd|Hd]; rewrite Hd.
    all: split_switch;
      destruct (canViewFinancials (App.currentRole st)); cbn [negb];
      split; try discriminate; try tauto;
      intros [Hm Hc]; congruence. }
  split; [exact Hfin|]. split.
  - unfold renderContent. cbv zeta.
    destruct (renderDashboard_is_dashboard st) as [Hd|Hd]; rewrite Hd.
    all: split_switch;
      destruct (canViewFinancials (App.currentRole st)); cbn [negb];
      split; try discriminate; try tauto;
      intros [Hm Hc]; congruence.
  - intros H. apply Hfin in H. destruct H as [_ Hc].
    apply includes_In. now destruct (App.currentRole st).
Qed.

Lemma renderContent_guards_finance_witness :
  renderContent (setActiveModule "finance" (sampleState OwnerAdmin))
    = FinanceModule
  /\ In "finance" (allowedModules OwnerAdmin).
Proof.
  split; [reflexivity|].
  destruct (renderContent_guards_finance
              (setActiveModule "finance" (sampleState OwnerAdmin)))
    as (_ & _ & H).
  apply H. reflexivity.
Defined.

(** The dashboard shortcuts set the active module directly and the
    dispatcher re-checks the role for finance only.  For the sales
    representative the populated dashboard therefore opens the sales
    module and the empty-state dashboard the settings module, neither of
    which is in the role's allowed set, while the finance shortcut ends on
    the denial card.  The empty-state case is reached from the start state
    by one role switch. *)
Theorem dashboard_shortcuts_skip_gate (st : App.state) :
  App.currentRole st = SalesRepresentative ->
  (renderContent st = PopulatedDashboard ->
   In "sales" (dashboardShortcuts (renderContent st))
   /\ ~ In "sales" (allowedModules (App.currentRole st))
   /\ renderContent (setActiveModule "sales" st) = SalesModule
   /\ ~ moduleAllowed (setActiveModule "sales" st)
   /\ In "finance" (dashboardShortcuts (renderContent st))
   /\ renderContent (setActiveModule "finance" st) = FinanceAccessDenied)
  /\ (renderContent st = EmptyStateDashboard ->
      In "settings" (dashboardShortcuts (renderContent st))
      /\ ~ In "settings" (allowedModules (App.currentRole st))
      /\ renderContent (setActiveModule "settings" st) = SettingsModule
      /\ ~ moduleAllowed (setActiveModule "settings" st))
  /\ renderContent (switchRole initialState) = EmptyStateDashboard
  /\ App.currentRole (switchRole initialState) = SalesRepresentative.
Proof.
  intros Hrole.
  assert (Hsales : ~ In "sales" (allowedModules SalesRepresentative)).
  { intros H. apply includes_In in H. discriminate H. }
  assert (Hsettings : ~ In "settings" (allowedModules SalesRepresentative)).
  { intros H. apply includes_In in H. discriminate H. }
  split; [|split; [|split; reflexivity]].
  - intros ->. unfold moduleAllowed, renderContent, setActiveModule.
    cbn [App.activeModule App.currentRole]. rewrite Hrole.
    repeat split; try assumption; try reflexivity.
    + right. now left.
    + now left.
  - intros ->. unfold moduleAllowed, renderContent, setActiveModule.
    cbn [App.activeModule App.currentRole]. rewrite Hrole.
    repeat split; try assumption; try reflexivity.
    right. right. right. now left.
Qed.

Lemma dashboard_shortcuts_skip_gate_witness :
  App.currentRole (sampleState SalesRepresentative) = SalesRepresentative
  /\ renderContent (sampleState SalesRepresentative) = PopulatedDashboard
  /\ renderContent (setActiveModule "sales" (sampleState SalesRepresentative))
     = SalesModule.
Proof.
  split; [reflexivity|]. split; [reflexivity|].
  destruct (dashboard_shortcuts_skip_gate (sampleState SalesRepresentative)
              eq_refl) as (H & _).
  destruct (H eq_refl) as (_ & _ & Hview & _). exact Hview.
Defined.

(** The empty-state dashboard is shown exactly while there is no
    transaction, no inventory record and no customer; once a transaction
    is committed the dashboard is the populated one. *)
Theorem renderDashboard_after_commit (st : App.state) :
  (renderDashboard st = EmptyStateDashboard
   <-> App.allTransactions st = [] /\ App.inventory st = []
       /\ App.customers st = [])
  /\ (forall (now : Z) (toLocaleDateString : Z -> string) (t : Transaction.t),
        renderDashboard (handleNewTransaction now toLocaleDateString t st)
        = PopulatedDashboard)
  /\ renderDashboard initialState = EmptyStateDashboard.
Proof.
  split; [|split; reflexivity].
  unfold renderDashboard.
  destruct (App.allTransactions st), (App.inventory st), (App.customers st);
    simpl; split; try discriminate; try tauto;
    intros (H1 & H2 & H3); discriminate.
Qed.

(** ** Alert badges *)

Lemma filter_map_swap_length {A B : Type} (f : A -> B) (q : B -> bool)
    (xs : list A) :
  length (List.filter q (List.map f xs))
  = length (List.filter (fun x => q (f x)) xs).
Proof.
  induction xs as [|x xs IH]; simpl; [reflexivity|].
  destruct (q (f x)); simpl; now rewrite IH.
Qed.

Lemma filter_filter_implied {A : Type} (p q : A -> bool) (xs : list A) :
  (forall x, p x = true -> q x = true) ->
  List.filter p (List.filter q xs) = List.filter p xs.
Proof.
  intros Himp. induction xs as [|x xs IH]; simpl; [reflexivity|].
  destruct (q x) eqn:Eq; simpl.
  - now rewrite IH.
  - destruct (p x) eqn:Ep; [|exact IH].
    apply Himp in Ep. congruence.
Qed.

Lemma includes_filter (p : string -> bool) (bn : list string) (b : string) :
  includes (List.filter p bn) b = (includes bn b && p b)%bool.
Proof.
  unfold includes. induction bn as [|k bn IH]; simpl; [reflexivity|].
  destruct (String.eqb b k) eqn:E.
  - apply String.eqb_eq in E. subst k. destruct (p b) eqn:Ep; simpl.
    + now rewrite String.eqb_refl.
    + rewrite IH. now rewrite andb_false_r.
  - destruct (p k); simpl; [rewrite E|]; exact IH.
Qed.

Lemma bool_eq_of_iff (a b : bool) : (a = true <-> b = true) -> a = b.
Proof.
  destruct a, b; intros [H1 H2]; try reflexivity.
  - symmetry. now apply H1.
  - now apply H2.
Qed.

(** The badge of a branch card counts the inventory records that pass the
    low-stock test at that branch; when the branch is one of the named
    branches and does not bear the name of a member of [Object.prototype]
    these are the records whose on-hand quantity there, a missing entry
    counting 0, is at or below their threshold; for a name that is not
    among the named branches the badge is 0. *)
Theorem branchAlertCount_counts_low_items
    (inv : list InventoryItem.t) (bn : list string) (b : string) :
  (In b bn ->
   branchAlertCount (lowStockAlerts inv bn) b
   = length (List.filter (fun item =>
               js_le (stockAt item b)
                     (Num (Fin (InventoryItem.lowStockThreshold item))))
               inv))
  /\ (In b bn -> inherited b = false ->
      branchAlertCount (lowStockAlerts inv bn) b
      = length (List.filter (fun item =>
                  Qle_bool (onHand item b) (InventoryItem.lowStockThreshold item))
                  inv))
  /\ (~ In b bn -> branchAlertCount (lowStockAlerts inv bn) b = 0%nat).
Proof.
  assert (Hcount : In b bn ->
    branchAlertCount (lowStockAlerts inv bn) b
    = length (List.filter (fun item =>
                js_le (stockAt item b)
                      (Num (Fin (InventoryItem.lowStockThreshold item))))
                inv)).
  { intros Hb. unfold branchAlertCount, lowStockAlerts.
    rewrite filter_map_swap_length. cbn [StockAlert.branches].
    apply includes_In in Hb.
    rewrite (List.filter_ext _ (fun item =>
      js_le (stockAt item b)
            (Num (Fin (InventoryItem.lowStockThreshold item))))).
    - rewrite filter_filter_implied; [reflexivity|].
      intros item Hlow. apply existsb_exists. exists b.
      split; [now apply includes_In | exact Hlow].
    - intros item. now rewrite includes_filter, Hb. }
  split; [exact Hcount|]. split.
  - intros Hb Hplain. rewrite (Hcount Hb). f_equal. apply List.filter_ext.
    intros item. apply bool_eq_of_iff.
    rewrite (js_le_lowAt item b (or_introl Hplain)). unfold lowAt.
    now rewrite Qle_bool_iff.
  - intros Hb. unfold branchAlertCount, lowStockAlerts.
    rewrite filter_map_swap_length. cbn [StockAlert.branches].
    rewrite (List.filter_ext _ (fun _ => false)).
    + clear Hcount.
      generalize (List.filter
                    (fun item =>
                       existsb (fun branch =>
                         js_le (stockAt item branch)
                               (Num (Fin (InventoryItem.lowStockThreshold item))))
                         bn) inv).
      intros l. induction l as [|x xs IH]; [reflexivity | exact IH].
    + intros item. rewrite includes_filter.
      destruct (includes bn b) eqn:E; [|reflexivity].
      apply includes_In in E. contradiction.
Qed.

Lemma branchAlertCount_counts_low_items_witness :
  (In "Main" ["Main"] /\ inherited "Main" = false)
  /\ branchAlertCount
       (lowStockAlerts [sampleItem "feed-1" 5 5; sampleItem "feed-2" 6 5] ["Main"])
       "Main" = 1%nat.
Proof.
  split; [split; [now left | reflexivity]|].
  destruct (branchAlertCount_counts_low_items
              [sampleItem "feed-1" 5 5; sampleItem "feed-2" 6 5] ["Main"] "Main")
    as (_ & H & _).
  rewrite (H (or_introl eq_refl) eq_refl). reflexivity.
Defined.

Lemma length_flat_map_le {A B : Type} (f : A -> list B) (k : nat) (xs : list A) :
  (forall x, (length (f x) <= k)%nat) ->
  (length (flat_map f xs) <= length xs * k)%nat.
Proof.
  intros Hk. induction xs as [|x xs IH]; simpl; [lia|].
  rewrite length_app. specialize (Hk x). lia.
Qed.

Lemma alertsOfPair_at_most_one (now : Z) (item : InventoryItem.t)
    (branch : string) :
  (length (alertsOfPair now item branch) <= 1)%nat.
Proof.
  rewrite alertsOfPair_single. cbv zeta.
  destruct (List.filter _ (batchesAt item branch)); simpl; lia.
Qed.

Lemma expirationAlerts_length (now : Z) (inv : list InventoryItem.t)
    (bn : list string) (alerts : list ExpirationAlert.t) :
  expirationAlerts now inv bn = Returned alerts ->
  (length alerts <= length inv * length bn)%nat.
Proof.
  intros Hret.
  destruct (expirationAlerts_cases now inv bn) as [[Hthrow _] | [Hflat _]];
    [congruence|].
  rewrite Hflat in Hret. injection Hret as <-.
  apply length_flat_map_le. intros item.
  replace (length bn) with (length bn * 1)%nat by lia.
  apply length_flat_map_le. intros b. apply alertsOfPair_at_most_one.
Qed.

(** There is at most one low-stock alert per inventory record and, when
    the derivation returns, at most one expiration alert per record and
    listed branch, so the alert total of the bell is bounded by records
    times (1 + branches), and it is 0 for an empty inventory. *)
Theorem totalAlerts_bounded (now : Z) (inv : list InventoryItem.t)
    (bn : list string) :
  (length (lowStockAlerts inv bn) <= length inv)%nat
  /\ (forall alerts,
        expirationAlerts now inv bn = Returned alerts ->
        (length alerts <= length inv * length bn)%nat)
  /\ (forall total,
        totalAlerts now inv bn = Returned total ->
        (total <= length inv * (1 + length bn))%nat)
  /\ totalAlerts now [] bn = Returned 0%nat.
Proof.
  assert (Hlow : (length (lowStockAlerts inv bn) <= length inv)%nat).
  { unfold lowStockAlerts. rewrite length_map. apply List.filter_length_le. }
  split; [exact Hlow|]. split; [apply expirationAlerts_length|].
  split; [|reflexivity].
  intros total. unfold totalAlerts, alertsMemo.
  destruct (expirationAlerts now inv bn) as [alerts|] eqn:E; [|discriminate].
  cbn [bind fst snd]. intros [= <-].
  apply expirationAlerts_length in E. lia.
Qed.

Lemma totalAlerts_bounded_witness :
  totalAlerts 0 [sampleBatches [864000000%Z]] ["Main"] = Returned 1%nat
  /\ (1 <= length [sampleBatches [864000000%Z]] * (1 + length ["Main"]))%nat.
Proof.
  split; [reflexivity|].
  destruct (totalAlerts_bounded 0 [sampleBatches [864000000%Z]] ["Main"])
    as (_ & _ & H & _).
  apply H. reflexivity.
Defined.

(** ** What a commit does to the derived figures *)

Lemma find_map_preserving {A : Type} (p : A -> bool) (f : A -> A) (xs : list A) :
  (forall x, p (f x) = p x) ->
  find p (List.map f xs) = option_map f (find p xs).
Proof.
  intros Hp. induction xs as [|x xs IH]; simpl; [reflexivity|].
  rewrite Hp. now destruct (p x).
Qed.

Lemma lineCost_after_commit (now : Z) (t : Transaction.t)
    (inv : list InventoryItem.t) (line : CartItem.t) :
  lineCost_spec (List.map (deductStock now t) inv) line = lineCost_spec inv line.
Proof.
  unfold lineCost_spec.
  rewrite (find_map_preserving _ (deductStock now t)).
  - destruct (find _ inv) as [item|]; cbn [option_map]; [|reflexivity].
    now destruct (deductStock_keeps_identity now t item) as (_ & _ & ->).
  - intros item.
    now destruct (deductStock_keeps_identity now t item) as (-> & _).
Qed.

Lemma salesMetrics_totalCOGS_sum (T : list Transaction.t)
    (inv : list InventoryItem.t) (bn : list string) :
  Metrics.totalCOGS (salesMetrics T inv bn true) == totalCOGS_spec T inv.
Proof.
  simpl. unfold totalCOGS_spec.
  rewrite (fold_left_Qplus (fun t =>
    fold_left (fun itemSum item =>
      itemSum
      + num_or (option_map InventoryItem.costPrice
                  (find (fun inv0 =>
                           String.eqb (InventoryItem.id inv0) (CartItem.id item))
                        inv)) 0
        * CartItem.quantity item) (Transaction.items t) 0)).
  apply Qsum_map_ext. intros t _.
  rewrite (fold_left_Qplus (fun item =>
    num_or (option_map InventoryItem.costPrice
              (find (fun inv0 =>
                       String.eqb (InventoryItem.id inv0) (CartItem.id item))
                    inv)) 0
    * CartItem.quantity item)).
  apply Qsum_map_ext. intros line _. apply costPrice_times_quantity.
Qed.

Lemma salesMetrics_totalRevenue_sum (T : list Transaction.t)
    (inv : list InventoryItem.t) (bn : list string) (admin : bool) :
  Metrics.totalRevenue (salesMetrics T inv bn admin)
  == Qsum (List.map Transaction.total T).
Proof. apply (fold_left_Qplus Transaction.total). Qed.

(** Committing a transaction raises the total revenue by its total and the
    order count by one; for an admin it raises COGS by the cost of its
    line items, priced at the cost price of the first inventory record
    with the line's id, and gross profit by the total minus that cost.
    The cost of the earlier transactions is not changed by the stock
    deduction. *)
Theorem commit_moves_metrics (now : Z) (toLocaleDateString : Z -> string)
    (t : Transaction.t) (st : App.state) (bn : list string) (admin : bool) :
  let st' := handleNewTransaction now toLocaleDateString t st in
  let before := salesMetrics (App.allTransactions st) (App.inventory st) bn in
  let after := salesMetrics (App.allTransactions st') (App.inventory st') bn in
  let cost := Qsum (List.map (lineCost_spec (App.inventory st))
                      (Transaction.items t)) in
  Metrics.totalRevenue (after admin)
    == Metrics.totalRevenue (before admin) + Transaction.total t
  /\ Metrics.totalOrders (after admin) = S (Metrics.totalOrders (before admin))
  /\ Metrics.totalCOGS (after true) == Metrics.totalCOGS (before true) + cost
  /\ Metrics.grossProfit (after true)
     == Metrics.grossProfit (before true) + (Transaction.total t - cost).
Proof.
  cbv zeta.
  assert (Hrev : forall a,
    Metrics.totalRevenue
      (salesMetrics
         (App.allTransactions (handleNewTransaction now toLocaleDateString t st))
         (App.inventory (handleNewTransaction now toLocaleDateString t st)) bn a)
    == Metrics.totalRevenue
         (salesMetrics (App.allTransactions st) (App.inventory st) bn a)
       + Transaction.total t).
  { intros a. rewrite !salesMetrics_totalRevenue_sum.
    cbn [handleNewTransaction App.allTransactions List.map Qsum fold_right].
    change (fold_right Qplus 0) with Qsum. ring. }
  assert (Hcogs :
    Metrics.totalCOGS
      (salesMetrics
         (App.allTransactions (handleNewTransaction now toLocaleDateString t st))
         (App.inventory (handleNewTransaction now toLocaleDateString t st)) bn true)
    == Metrics.totalCOGS
         (salesMetrics (App.allTransactions st) (App.inventory st) bn true)
       + Qsum (List.map (lineCost_spec (App.inventory st)) (Transaction.items t))).
  { rewrite !salesMetrics_totalCOGS_sum. unfold totalCOGS_spec.
    cbn [handleNewTransaction App.allTransactions App.inventory List.map Qsum
         fold_right].
    change (fold_right Qplus 0) with Qsum.
    rewrite (Qsum_map_ext _ (lineCost_spec (App.inventory st))
               (Transaction.items t))
      by (intros line _; now rewrite lineCost_after_commit).
    rewrite (Qsum_map_ext
               (fun t0 => Qsum (List.map
                  (lineCost_spec (List.map (deductStock now t) (App.inventory st)))
                  (Transaction.items t0)))
               (fun t0 => Qsum (List.map (lineCost_spec (App.inventory st))
                                  (Transaction.items t0)))).
    - ring.
    - intros t0 _. apply Qsum_map_ext. intros line _.
      now rewrite lineCost_after_commit. }
  split; [apply Hrev|]. split; [reflexivity|]. split; [exact Hcogs|].
  change (Metrics.grossProfit (?f true))
    with (Metrics.totalRevenue (f true) - Metrics.totalCOGS (f true)).
  change (Metrics.grossProfit
            (salesMetrics
               (App.allTransactions
                  (handleNewTransaction now toLocaleDateString t st))
               (App.inventory (handleNewTransaction now toLocaleDateString t st))
               bn true))
    with (Metrics.totalRevenue
            (salesMetrics
               (App.allTransactions
                  (handleNewTransaction now toLocaleDateString t st))
               (App.inventory (handleNewTransaction now toLocaleDateString t st))
               bn true)
          - Metrics.totalCOGS
              (salesMetrics
                 (App.allTransactions
                    (handleNewTransaction now toLocaleDateString t st))
                 (App.inventory (handleNewTransaction now toLocaleDateString t st))
                 bn true)).
  rewrite Hcogs, (Hrev true).
  change (Metrics.grossProfit
            (salesMetrics (App.allTransactions st) (App.inventory st) bn true))
    with (Metrics.totalRevenue
            (salesMetrics (App.allTransactions st) (App.inventory st) bn true)
          - Metrics.totalCOGS
              (salesMetrics (App.allTransactions st) (App.inventory st) bn true)).
  ring.
Qed.

(** ** What a commit keeps *)

Lemma deductStock_keeps_static (now : Z) (t : Transaction.t)
    (item : InventoryItem.t) :
  InventoryItem.name (deductStock now t item) = InventoryItem.name item
  /\ InventoryItem.lowStockThreshold (deductStock now t item)
     = InventoryItem.lowStockThreshold item
  /\ InventoryItem.expirationDates (deductStock now t item)
     = InventoryItem.expirationDates item.
Proof. unfold deductStock. now destruct (find _ _). Qed.

(** A commit at a branch that does not bear the name of a member of
    [Object.prototype] keeps the stock-weight invariant: if every record
    has, at every branch, a stock weight equal to its stock times its unit
    weight, so has every record afterwards. *)
Theorem commit_keeps_weight_consistent
    (now : Z) (toLocaleDateString : Z -> string)
    (t : Transaction.t) (st : App.state) :
  inherited (Transaction.branch t) = false ->
  Forall weightConsistent (App.inventory st) ->
  Forall weightConsistent
    (App.inventory (handleNewTransaction now toLocaleDateString t st)).
Proof.
  intros Hbr Hall. cbn [handleNewTransaction App.inventory].
  rewrite List.Forall_forall in Hall. apply List.Forall_forall.
  intros item' Hin. apply in_map_iff in Hin.
  destruct Hin as (item & <- & Hin). specialize (Hall item Hin).
  rename Hall into Hitem.
  destruct (deductStock_cases now t item)
    as [[_ ->] | (sold & _ & _ & Hs & Hw & _)]; [exact Hitem|].
  destruct (newStock_plain item (Transaction.branch t) (CartItem.quantity sold)
              (or_introl Hbr)) as (s & Hnew & _ & _).
  intros b. rewrite Hs, Hw, Hnew. cbn [js_mul toNumber].
  destruct (deductStock_keeps_identity now t item) as (_ & -> & _).
  destruct (decide (Transaction.branch t = b)) as [<-|Hne].
  - rewrite !lookup_insert_eq. reflexivity.
  - rewrite !lookup_insert_ne by exact Hne. apply Hitem.
Qed.

Lemma commit_keeps_weight_consistent_witness :
  (inherited (Transaction.branch (sampleSale None [sampleLine "feed-1" 3] 36))
   = false
   /\ Forall weightConsistent (App.inventory (sampleState OwnerAdmin)))
  /\ Forall weightConsistent
       (App.inventory
          (handleNewTransaction 0 (fun _ => "hoy")
             (sampleSale None [sampleLine "feed-1" 3] 36)
             (sampleState OwnerAdmin))).
Proof.
  assert (H0 : Forall weightConsistent (App.inventory (sampleState OwnerAdmin))).
  { repeat constructor. intros b. cbn.
    destruct (decide ("Main" = b)) as [<-|Hne].
    - rewrite !lookup_singleton_eq. reflexivity.
    - now rewrite !lookup_singleton_ne by exact Hne. }
  split; [split; [reflexivity | exact H0]|].
  apply (commit_keeps_weight_consistent 0 (fun _ => "hoy")
           (sampleSale None [sampleLine "feed-1" 3] 36)
           (sampleState OwnerAdmin) eq_refl H0).
Defined.

Lemma pushExpirationAlert_after_deduct (clock now : Z) (t : Transaction.t)
    (item : InventoryItem.t) (alerts : list ExpirationAlert.t) (b : string) :
  pushExpirationAlert clock (deductStock now t item) alerts b
  = pushExpirationAlert clock item alerts b.
Proof.
  unfold pushExpirationAlert.
  destruct (deductStock_keeps_static now t item) as (-> & _ & ->).
  now destruct (deductStock_keeps_identity now t item) as (-> & _).
Qed.

Lemma fold_left_map_swap {A B C : Type} (f : A -> C -> A) (g : B -> C)
    (xs : list B) (a : A) :
  fold_left f (List.map g xs) a = fold_left (fun acc x => f acc (g x)) xs a.
Proof.
  revert a. induction xs as [|x xs IH]; intros a; [reflexivity | apply IH].
Qed.

Lemma fold_left_ext_all {A B : Type} (f g : A -> B -> A) (xs : list B) (a : A) :
  (forall acc x, f acc x = g acc x) -> fold_left f xs a = fold_left g xs a.
Proof.
  intros Hfg. revert a. induction xs as [|x xs IH]; intros a; [reflexivity|].
  simpl. now rewrite Hfg, IH.
Qed.

(** A commit never touches the recorded expiration dates, so the
    expiration alerts are the same before and after it, also for a record
    whose stock the sale has brought to 0. *)
Theorem commit_keeps_expiration_alerts
    (now : Z) (toLocaleDateString : Z -> string)
    (t : Transaction.t) (st : App.state) (clock : Z) (bn : list string) :
  expirationAlerts clock
    (App.inventory (handleNewTransaction now toLocaleDateString t st)) bn
  = expirationAlerts clock (App.inventory st) bn.
Proof.
  unfold expirationAlerts. cbn [handleNewTransaction App.inventory].
  rewrite fold_left_map_swap. apply fold_left_ext_all. intros acc item.
  destruct acc as [alerts|]; [|reflexivity]. cbn [bind].
  apply fold_left_ext_all. intros acc' b.
  destruct acc' as [alerts'|]; [|reflexivity]. cbn [bind].
  apply pushExpirationAlert_after_deduct.
Qed.

(** The low-stock test of the alert derivation passes: the read is a
    rational at or below the threshold. *)
Lemma js_le_inv (item : InventoryItem.t) (b : string) (thr : Q) :
  js_le (stockAt item b) (Num (Fin thr)) = true ->
  exists x, stockAt item b = Num (Fin x) /\ x <= thr.
Proof.
  destruct (stockAt item b) as [[x|]|]; cbn [js_le toNumber]; try discriminate.
  intros H. exists x. split; [reflexivity | now apply Qle_bool_iff].
Qed.

Lemma stockAt_other_branch (now : Z) (t : Transaction.t)
    (item : InventoryItem.t) (b : string) :
  b <> Transaction.branch t ->
  stockAt (deductStock now t item) b = stockAt item b.
Proof.
  intros Hb.
  destruct (deductStock_cases now t item)
    as [[_ ->] | (sold & _ & _ & Hs & _)]; [reflexivity|].
  unfold stockAt, getProperty. rewrite Hs.
  now rewrite lookup_insert_ne by congruence.
Qed.

Lemma stockAt_own_rational (item : InventoryItem.t) (b : string) (s : Q) :
  InventoryItem.stock item !! b = Some (Fin s) ->
  exists x, stockAt item b = Num (Fin x) /\ x == s.
Proof.
  intros Hs. unfold stockAt, getProperty. rewrite Hs.
  unfold js_or, truthy. destruct (Qeq_bool s 0) eqn:E; cbn [negb].
  - exists 0. split; [reflexivity|]. apply Qeq_bool_iff in E. now rewrite E.
  - exists s. split; reflexivity.
Qed.

Lemma Qle_minus_nonneg (x q : Q) : 0 <= q -> x - q <= x.
Proof.
  intros Hq. rewrite <- (Qplus_0_r x) at 2.
  unfold Qminus. apply Qplus_le_compat; [apply Qle_refl|].
  rewrite <- (Qopp_involutive 0). now apply Qopp_le_compat.
Qed.

(** With non-negative sold quantities and a non-negative threshold, a
    record that passes the low-stock test at a branch still passes it
    after a commit, and a record that alerts still alerts: a sale never
    clears a low-stock alert. *)
Theorem commit_keeps_low_stock
    (now : Z) (toLocaleDateString : Z -> string)
    (t : Transaction.t) (st : App.state) (i : nat) (item : InventoryItem.t) :
  (forall line, In line (Transaction.items t) -> 0 <= CartItem.quantity line) ->
  nth_error (App.inventory st) i = Some item ->
  0 <= InventoryItem.lowStockThreshold item ->
  exists item',
    nth_error
      (App.inventory (handleNewTransaction now toLocaleDateString t st)) i
      = Some item'
    /\ InventoryItem.id item' = InventoryItem.id item
    /\ (forall b,
          js_le (stockAt item b)
                (Num (Fin (InventoryItem.lowStockThreshold item))) = true ->
          js_le (stockAt item' b)
                (Num (Fin (InventoryItem.lowStockThreshold item'))) = true)
    /\ (forall bn, lowStockAlerts [item] bn <> [] ->
                   lowStockAlerts [item'] bn <> []).
Proof.
  intros Hq Hitem Hthr. exists (deductStock now t item).
  assert (Htest : forall b,
    js_le (stockAt item b)
          (Num (Fin (InventoryItem.lowStockThreshold item))) = true ->
    js_le (stockAt (deductStock now t item) b)
          (Num (Fin (InventoryItem.lowStockThreshold (deductStock now t item))))
    = true).
  { intros b Hlow.
    destruct (deductStock_keeps_static now t item) as (_ & -> & _).
    destruct (decide (b = Transaction.branch t)) as [->|Hne];
      [|now rewrite stockAt_other_branch].
    destruct (deductStock_cases now t item)
      as [[_ ->] | (sold & _ & Hin & Hs & _)]; [exact Hlow|].
    destruct (js_le_inv _ _ _ Hlow) as (x & Hx & Hle).
    rewrite Hx in Hs. cbn [js_sub toNumber Math_max] in Hs.
    assert (Hnew : InventoryItem.stock (deductStock now t item)
                     !! Transaction.branch t
                   = Some (Fin (Qmax 0 (x - CartItem.quantity sold)))).
    { rewrite Hs. apply lookup_insert_eq. }
    destruct (stockAt_own_rational _ _ _ Hnew) as (y & Hy & Ey).
    rewrite Hy. cbn [js_le toNumber]. apply Qle_bool_iff. rewrite Ey.
    apply Q.max_lub; [exact Hthr|].
    eapply Qle_trans; [apply Qle_minus_nonneg; now apply Hq | exact Hle]. }
  split; [cbn [handleNewTransaction App.inventory];
          now rewrite nth_error_map, Hitem|].
  split; [now destruct (deductStock_keeps_identity now t item) as (-> & _)|].
  split; [exact Htest|].
  intros bn. rewrite !lowStockAlerts_single.
  destruct (existsb _ bn) eqn:E; [|congruence]. intros _.
  apply existsb_exists in E. destruct E as (b & Hb & Hlow).
  assert (E' : existsb (fun branch =>
                 js_le (stockAt (deductStock now t item) branch)
                   (Num (Fin (InventoryItem.lowStockThreshold
                                (deductStock now t item))))) bn = true).
  { apply existsb_exists. exists b. split; [exact Hb | now apply Htest]. }
  rewrite E'. discriminate.
Qed.

Lemma commit_keeps_low_stock_witness :
  let t := sampleSale None [sampleLine "feed-1" 3] 36 in
  let st := App.mk OwnerAdmin "pos" false [sampleItem "feed-1" 5 5] [] [] in
  lowStockAlerts [sampleItem "feed-1" 5 5] ["Main"] <> []
  /\ exists item',
       nth_error (App.inventory (handleNewTransaction 0 (fun _ => "hoy") t st)) 0
         = Some item'
       /\ lowStockAlerts [item'] ["Main"] <> [].
Proof.
  cbv zeta.
  assert (Hlow : lowStockAlerts [sampleItem "feed-1" 5 5] ["Main"] <> [])
    by discriminate.
  split; [exact Hlow|].
  destruct (commit_keeps_low_stock 0 (fun _ => "hoy")
              (sampleSale None [sampleLine "feed-1" 3] 36)
              (App.mk OwnerAdmin "pos" false [sampleItem "feed-1" 5 5] [] [])
              0 (sampleItem "feed-1" 5 5))
    as (item' & Hnth & _ & _ & Hkeep).
  - intros line [<-|[]]. discriminate.
  - reflexivity.
  - discriminate.
  - exists item'. split; [exact Hnth | now apply Hkeep].
Defined.

Lemma Qle_plus_nonneg (x y : Q) : 0 <= y -> x <= x + y.
Proof.
  intros Hy. rewrite <- (Qplus_0_r x) at 1.
  apply Qplus_le_compat; [apply Qle_refl | exact Hy].
Qed.

Lemma loyalty_gain_nonneg (total : Q) :
  0 <= total -> 0 <= inject_Z (Math_floor (total / 100)).
Proof.
  intros Htotal. unfold Math_floor.
  assert (H0 : 0 <= total / 100).
  { apply Qle_shift_div_l; [reflexivity|]. now rewrite Qmult_0_l. }
  apply Qfloor_resp_le in H0. change (Qfloor 0) with 0%Z in H0.
  rewrite Zle_Qle in H0. exact H0.
Qed.

(** A commit keeps every customer in place with the same id; when the
    transaction's total is not negative, no customer's order count, amount
    spent or loyalty points go down, and the points gained are at most a
    hundredth of the total. *)
Theorem commit_never_lowers_customer_history
    (now : Z) (toLocaleDateString : Z -> string)
    (t : Transaction.t) (st : App.state) (i : nat) (c : Customer.t) :
  0 <= Transaction.total t ->
  nth_error (App.customers st) i = Some c ->
  exists c',
    nth_error
      (App.customers (handleNewTransaction now toLocaleDateString t st)) i
      = Some c'
    /\ Customer.id c' = Customer.id c
    /\ Customer.totalOrders c <= Customer.totalOrders c'
    /\ Customer.totalSpent c <= Customer.totalSpent c'
    /\ Customer.loyaltyPoints c <= Customer.loyaltyPoints c'
    /\ Customer.loyaltyPoints c'
       <= Customer.loyaltyPoints c + Transaction.total t / 100.
Proof.
  intros Htotal Hc.
  assert (Hgain : 0 <= Transaction.total t / 100).
  { apply Qle_shift_div_l; [reflexivity|]. now rewrite Qmult_0_l. }
  assert (Hsame : Customer.id c = Customer.id c
                  /\ Customer.totalOrders c <= Customer.totalOrders c
                  /\ Customer.totalSpent c <= Customer.totalSpent c
                  /\ Customer.loyaltyPoints c <= Customer.loyaltyPoints c
                  /\ Customer.loyaltyPoints c
                     <= Customer.loyaltyPoints c + Transaction.total t / 100).
  { repeat split; try apply Qle_refl. now apply Qle_plus_nonneg. }
  cbn [handleNewTransaction App.customers].
  destruct (truthy_string (Transaction.customerId t));
    [|exists c; split; [exact Hc | exact Hsame]].
  exists (recordPurchase now toLocaleDateString t c).
  split; [now rewrite nth_error_map, Hc|].
  unfold recordPurchase.
  destruct (strict_eq_opt (Customer.id c) (Transaction.customerId t));
    [|exact Hsame].
  cbn [Customer.id Customer.totalOrders Customer.totalSpent
       Customer.loyaltyPoints].
  split; [reflexivity|].
  split; [apply Qle_plus_nonneg; discriminate|].
  split; [now apply Qle_plus_nonneg|].
  split; [apply Qle_plus_nonneg; now apply loyalty_gain_nonneg|].
  apply Qplus_le_compat; [apply Qle_refl | apply Qfloor_le].
Qed.

Lemma commit_never_lowers_customer_history_witness :
  let t := sampleSale (Some "c-1") [] 250 in
  (0 <= Transaction.total t
   /\ nth_error (App.customers (sampleState OwnerAdmin)) 0
      = Some (sampleCustomer "c-1"))
  /\ exists c',
       nth_error
         (App.customers
            (handleNewTransaction 0 (fun _ => "hoy") t (sampleState OwnerAdmin))) 0
         = Some c'
       /\ Customer.loyaltyPoints (sampleCustomer "c-1")
          <= Customer.loyaltyPoints c'.
Proof.
  cbv zeta. split; [split; [discriminate | reflexivity]|].
  destruct (commit_never_lowers_customer_history 0 (fun _ => "hoy")
              (sampleSale (Some "c-1") [] 250) (sampleState OwnerAdmin) 0
              (sampleCustomer "c-1"))
    as (c' & Hnth & _ & _ & _ & Hpts & _).
  - discriminate.
  - reflexivity.
  - exists c'. split; [exact Hnth | exact Hpts].
Defined.

Lemma onHand_after_deduct (now : Z) (t : Transaction.t) (item : InventoryItem.t)
    (b : string) :
  (forall line, In line (Transaction.items t) -> 0 <= CartItem.quantity line) ->
  0 <= onHand item (Transaction.branch t) ->
  onHand (deductStock now t item) b <= onHand item b.
Proof.
  intros Hq Hpos.
  destruct (deductStock_cases now t item)
    as [[_ ->] | (sold & _ & Hin & Hs & _)]; [apply Qle_refl|].
  unfold onHand at 1. rewrite Hs.
  destruct (decide (Transaction.branch t = b)) as [<-|Hne].
  - rewrite lookup_insert_eq.
    destruct (Math_max (Fin 0) _) as [s|] eqn:Hnew; [|exact Hpos].
    destruct (stockAt item (Transaction.branch t)) as [[x|]|] eqn:Hx;
      cbn [js_sub toNumber Math_max] in Hnew; try discriminate Hnew.
    injection Hnew as <-.
    assert (Ex : x <= onHand item (Transaction.branch t)).
    { revert Hx. unfold stockAt, getProperty, onHand.
      destruct (InventoryItem.stock item !! Transaction.branch t) as [[q|]|].
      - unfold js_or, truthy. destruct (Qeq_bool q 0) eqn:E; cbn [negb];
          intros [= <-]; [|apply Qle_refl].
        apply Qeq_bool_iff in E. rewrite E. apply Qle_refl.
      - cbn. intros [= <-]. apply Qle_refl.
      - destruct (inherited (Transaction.branch t)); cbn; [discriminate|].
        intros [= <-]. apply Qle_refl. }
    apply Q.max_lub; [exact Hpos|].
    eapply Qle_trans; [apply Qle_minus_nonneg; now apply Hq | exact Ex].
  - rewrite lookup_insert_ne by exact Hne. apply Qle_refl.
Qed.

(** When no listed branch bears the name of a member of
    [Object.prototype], and unit weights, the stock at the transaction's
    branch and the sold quantities are not negative, a commit never raises
    the total inventory weight. *)
Theorem commit_never_raises_inventory_weight
    (now : Z) (toLocaleDateString : Z -> string)
    (t : Transaction.t) (st : App.state) (bn : list string) (admin : bool) :
  plainNames bn ->
  (forall line, In line (Transaction.items t) -> 0 <= CartItem.quantity line) ->
  (forall item, In item (App.inventory st) ->
     0 <= InventoryItem.weight item
     /\ 0 <= onHand item (Transaction.branch t)) ->
  let st' := handleNewTransaction now toLocaleDateString t st in
  exists before after,
    Metrics.totalInventoryWeight
      (salesMetrics (App.allTransactions st) (App.inventory st) bn admin)
    = Fin before
    /\ Metrics.totalInventoryWeight
         (salesMetrics (App.allTransactions st') (App.inventory st') bn admin)
       = Fin after
    /\ after <= before.
Proof.
  intros Hbn Hq Hinv. cbv zeta.
  destruct (salesMetrics_weight_sum (App.allTransactions st) (App.inventory st)
              bn admin Hbn) as (before & Hb & Eb).
  destruct (salesMetrics_weight_sum
              (App.allTransactions (handleNewTransaction now toLocaleDateString t st))
              (App.inventory (handleNewTransaction now toLocaleDateString t st))
              bn admin Hbn) as (after & Ha & Ea).
  exists before, after. split; [exact Hb|]. split; [exact Ha|].
  rewrite Ea, Eb. unfold totalInventoryWeight_spec.
  cbn [handleNewTransaction App.inventory]. rewrite List.map_map.
  apply Qsum_map_le. intros item Hitem.
  destruct (Hinv item Hitem) as [Hw Hstock].
  destruct (deductStock_keeps_identity now t item) as (_ & -> & _).
  apply Qmult_le_compat_r; [|exact Hw].
  unfold unitsOnHand. apply Qsum_map_le. intros b _.
  now apply onHand_after_deduct.
Qed.

Lemma commit_never_raises_inventory_weight_witness :
  let t := sampleSale None [sampleLine "feed-1" 3] 36 in
  let st := sampleState OwnerAdmin in
  let st' := handleNewTransaction 0 (fun _ => "hoy") t st in
  plainNames ["Main"]
  /\ exists before after,
       Metrics.totalInventoryWeight
         (salesMetrics (App.allTransactions st) (App.inventory st) ["Main"] true)
       = Fin before
       /\ Metrics.totalInventoryWeight
            (salesMetrics (App.allTransactions st') (App.inventory st')
               ["Main"] true)
          = Fin after
       /\ after <= before.
Proof.
  cbv zeta. split; [exact plainNames_Main|].
  apply (commit_never_raises_inventory_weight 0 (fun _ => "hoy")
           (sampleSale None [sampleLine "feed-1" 3] 36)
           (sampleState OwnerAdmin) ["Main"] true plainNames_Main).
  - intros line [<-|[]]. discriminate.
  - intros item [<-|[]]. split; discriminate.
Defined.

(** ** Page heading *)

(** After gated navigation the heading names the module: for an active
    module in the role's allowed set the heading is the dashboard's
    exactly when the active module is the dashboard, and two allowed
    modules of one role never share a heading. *)
Theorem pageTitle_names_allowed_module (st1 st2 : App.state) :
  moduleAllowed st1 -> moduleAllowed st2 ->
  App.currentRole st1 = App.currentRole st2 ->
  (pageTitle st1 = "Dashboard Principal" <-> App.activeModule st1 = "dashboard")
  /\ (pageTitle st1 = pageTitle st2 ->
      App.activeModule st1 = App.activeModule st2).
Proof.
  unfold moduleAllowed, pageTitle. cbv zeta. intros H1 H2 Hrole.
  rewrite <- Hrole in H2 |- *.
  destruct (App.currentRole st1); simpl in H1, H2;
    repeat (destruct H1 as [<-|H1]; [|]); try destruct H1;
    (split; [split; [intros E; vm_compute in E|]; try reflexivity;
             try discriminate|]);
    repeat (destruct H2 as [<-|H2]; [|]); try destruct H2;
    intros E; try reflexivity; vm_compute in E; discriminate E.
Qed.

Lemma pageTitle_names_allowed_module_witness :
  let st1 := setActiveModule "reports" (sampleState OwnerAdmin) in
  let st2 := setActiveModule "settings" (sampleState OwnerAdmin) in
  (moduleAllowed st1 /\ moduleAllowed st2
   /\ App.currentRole st1 = App.currentRole st2)
  /\ (pageTitle st1 = pageTitle st1 -> App.activeModule st1 = App.activeModule st1)
  /\ pageTitle st1 <> pageTitle st2.
Proof.
  cbv zeta.
  assert (H1 : moduleAllowed (setActiveModule "reports" (sampleState OwnerAdmin))).
  { apply includes_In. reflexivity. }
  assert (H2 : moduleAllowed (setActiveModule "settings" (sampleState OwnerAdmin))).
  { apply includes_In. reflexivity. }
  split; [split; [exact H1 | split; [exact H2 | reflexivity]]|].
  split.
  - apply (pageTitle_names_allowed_module _ _ H1 H1 eq_refl).
  - intros E.
    destruct (pageTitle_names_allowed_module _ _ H1 H2 eq_refl) as [_ Hinj].
    specialize (Hinj E). discriminate Hinj.
Defined.
